(** * nats-top: the dashboard's formatter and input event loop (nats-top.go)

    A shallow embedding of [generateParagraph], [StartUI] (its event loop,
    the [update] goroutine and the goroutine spawned on an invalid sort
    token) and [cleanExit].  Go strings are byte strings: they are modelled
    by [string] (a list of 8-bit [ascii]), and [len] counts bytes. *)

From Stdlib Require Import ZArith Bool List String Ascii Lia.
From Stdlib Require Import Sorting.Permutation Sorting.Sorted.
From Stdlib Require Import QArith_base.
Import ListNotations.
Open Scope string_scope.
Open Scope Z_scope.

(* ------------------------------------------------------------------ *)
(** ** Bytes and Go string conversions *)

Definition byte_str (n : nat) : string := String (ascii_of_nat n) EmptyString.

(** The escape character [\033]. *)
Definition ESC : string := byte_str 27.

(** [string(r)] for a rune [r]: its UTF-8 encoding, or the encoding of
    U+FFFD when [r] is not a valid code point. *)
Definition utf8_of_rune (r : Z) : string :=
  let b z := byte_str (Z.to_nat z) in
  if (r <? 0) || (0x10FFFF <? r) || ((0xD800 <=? r) && (r <=? 0xDFFF)) then
    b 0xEF ++ b 0xBF ++ b 0xBD
  else if r <? 0x80 then b r
  else if r <? 0x800 then
    b (Z.lor 0xC0 (Z.shiftr r 6)) ++ b (Z.lor 0x80 (Z.land r 0x3F))
  else if r <? 0x10000 then
    b (Z.lor 0xE0 (Z.shiftr r 12))
      ++ b (Z.lor 0x80 (Z.land (Z.shiftr r 6) 0x3F))
      ++ b (Z.lor 0x80 (Z.land r 0x3F))
  else
    b (Z.lor 0xF0 (Z.shiftr r 18))
      ++ b (Z.lor 0x80 (Z.land (Z.shiftr r 12) 0x3F))
      ++ b (Z.lor 0x80 (Z.land (Z.shiftr r 6) 0x3F))
      ++ b (Z.lor 0x80 (Z.land r 0x3F)).

(** [s[:len(s)-1]]: drops the last byte (callers check [len(s) > 0]). *)
Fixpoint drop_last_byte (s : string) : string :=
  match s with
  | EmptyString => EmptyString
  | String _ EmptyString => EmptyString
  | String c s' => String c (drop_last_byte s')
  end.

(** Decimal rendering used by [%d]. *)
Fixpoint digits_of_pos (fuel : nat) (z : Z) (acc : string) : string :=
  match fuel with
  | O => acc
  | S fuel' =>
    let acc' := String (ascii_of_nat (48 + Z.to_nat (z mod 10))) acc in
    if z <? 10 then acc' else digits_of_pos fuel' (z / 10) acc'
  end.

Definition fmt_d (z : Z) : string :=
  match z with
  | Z0 => "0"
  | Zpos p => digits_of_pos (Pos.size_nat p) (Zpos p) ""
  | Zneg p => "-" ++ digits_of_pos (Pos.size_nat p) (Zpos p) ""
  end.

(** [strings.Join(xs, sep)]. *)
Fixpoint join (sep : string) (xs : list string) : string :=
  match xs with
  | [] => ""
  | [x] => x
  | x :: xs' => x ++ sep ++ join sep xs'
  end.

(* ------------------------------------------------------------------ *)
(** ** [fmt.Sscanf(optionBuf, "%d", &n)]

    Go's scanner for one [%d] verb: [SkipSpace] (Unicode white space is
    skipped; a newline, or a carriage return followed by one, is an error
    since [Sscanf] does not treat newlines as space), end of input is an
    error, then an optional sign, then at least one decimal digit, read
    greedily; the token is converted by [strconv.ParseInt(tok, 10, 64)],
    which fails out of the int64 range.  Bytes left after the number are
    not examined. *)

Inductive skip_result := SkipOk (rest : string) | SkipErr.

Definition nat_of (c : ascii) : nat := nat_of_ascii c.

(** Length in bytes of a white-space rune at the head of [s] other than
    the newline ([isSpace] of fmt/scan.go), or 0. *)
Definition space_prefix (s : string) : nat :=
  match s with
  | String a r =>
    let x := nat_of a in
    if ((9 <=? x)%nat && (x <=? 13)%nat && negb (x =? 10)%nat) || (x =? 32)%nat
    then 1%nat
    else match r with
    | String b r2 =>
      let y := nat_of b in
      if (x =? 0xC2)%nat && ((y =? 0x85)%nat || (y =? 0xA0)%nat) then 2%nat
      else match r2 with
      | String c _ =>
        let z := nat_of c in
        if (x =? 0xE1)%nat && (y =? 0x9A)%nat && (z =? 0x80)%nat then 3%nat
        else if (x =? 0xE2)%nat && (y =? 0x80)%nat &&
                (((0x80 <=? z)%nat && (z <=? 0x8A)%nat) || (z =? 0xA8)%nat
                 || (z =? 0xA9)%nat || (z =? 0xAF)%nat) then 3%nat
        else if (x =? 0xE2)%nat && (y =? 0x81)%nat && (z =? 0x9F)%nat then 3%nat
        else if (x =? 0xE3)%nat && (y =? 0x80)%nat && (z =? 0x80)%nat then 3%nat
        else 0%nat
      | EmptyString => 0%nat
      end
    | EmptyString => 0%nat
    end
  | EmptyString => 0%nat
  end.

Fixpoint skip_space (fuel : nat) (s : string) : skip_result :=
  match fuel with
  | O => SkipOk s
  | S fuel' =>
    match s with
    | EmptyString => SkipOk s
    | String a r =>
      if (nat_of a =? 10)%nat then SkipErr
      else if (nat_of a =? 13)%nat then
        match r with
        | String b _ => if (nat_of b =? 10)%nat then SkipErr else skip_space fuel' r
        | EmptyString => SkipOk r
        end
      else match space_prefix s with
           | O => SkipOk s
           | k => skip_space fuel' (substring k (String.length s) s)
           end
    end
  end.

Definition is_digit (c : ascii) : bool := (48 <=? nat_of c)%nat && (nat_of c <=? 57)%nat.

(** The longest prefix of decimal digits and its value. *)
Fixpoint scan_digits (s : string) (acc : Z) (n : nat) : Z * nat :=
  match s with
  | String c r =>
    if is_digit c then scan_digits r (acc * 10 + Z.of_nat (nat_of c - 48)) (S n)
    else (acc, n)
  | EmptyString => (acc, n)
  end.

Definition Sscanf_d (buf : string) : option Z :=
  match skip_space (String.length buf) buf with
  | SkipErr => None
  | SkipOk EmptyString => None
  | SkipOk (String c r as t) =>
    let '(sign, digits) :=
      if (nat_of c =? 43)%nat then (1, r)
      else if (nat_of c =? 45)%nat then (-1, r)
      else (1, t) in
    let '(v, n) := scan_digits digits 0 0 in
    if (n =? 0)%nat then None
    else let i := sign * v in
         if (- 2 ^ 63 <=? i) && (i <=? 2 ^ 63 - 1) then Some i else None
  end.

(* ------------------------------------------------------------------ *)
(** ** Data model: [Engine], [Stats] and the gnatsd monitoring records

    Only the fields that nats-top.go reads are kept.  A [float64] is kept
    as an exact rational: it is only ever passed to a [%.1f] verb here. *)

Definition float64 := Q.

(** The fields of [Engine] that nats-top.go reads or writes. *)
Record Engine := mkEngine {
  Conns : Z;
  Delay : Z;
  SortOpt : string;
  DisplaySubs : bool
}.

Record ServerInfo := mkServerInfo { Version : string }.

Record Varz := mkVarz {
  Info : option ServerInfo;
  CPU : float64;
  Mem : Z;
  Uptime : string;
  InMsgs : Z;
  OutMsgs : Z;
  InBytes : Z;
  OutBytes : Z;
  SlowConsumers : Z
}.

(** [gnatsd.ConnInfo]; [LastActivity] is kept as the text [%-40s] prints. *)
Record ConnInfo := mkConnInfo {
  Cid : Z;
  IP : string;
  Port : Z;
  Name : string;
  NumSubs : Z;
  Pending : Z;
  cInMsgs : Z;
  cOutMsgs : Z;
  cInBytes : Z;
  cOutBytes : Z;
  Lang : string;
  cVersion : string;
  cUptime : string;
  LastActivity : string;
  Subs : list string
}.

Record Connz := mkConnz { NumConns : Z; ConnList : list ConnInfo }.

Record Rates := mkRates {
  InMsgsRate : float64;
  OutMsgsRate : float64;
  InBytesRate : float64;
  OutBytesRate : float64
}.

Record Stats := mkStats { Varz_of : Varz; Connz_of : Connz; Rates_of : Rates }.

(** [cleanStats] of [StartUI]: zero values everywhere. *)
Definition cleanStats : Stats :=
  mkStats (mkVarz None 0%Q 0 "" 0 0 0 0 0) (mkConnz 0 []) (mkRates 0%Q 0%Q 0%Q 0%Q).

(* ------------------------------------------------------------------ *)
(** ** Sort options and sort orders *)

(** Modelled from the spec: the sort tokens [SortByCid] ... [SortByInBytes]
    of the util package (not in src/); their spelling is the one listed by
    [generateHelp] and the spec's sort-key contract. *)
Definition SortByCid : string := "cid".
Definition SortBySubs : string := "subs".
Definition SortByPending : string := "pending".
Definition SortByOutMsgs : string := "msgs_to".
Definition SortByInMsgs : string := "msgs_from".
Definition SortByOutBytes : string := "bytes_to".
Definition SortByInBytes : string := "bytes_from".

(** The [case] list of the [switch sortOpt] in [StartUI] (and [main]). *)
Definition is_sort_opt (o : string) : bool :=
  String.eqb o SortByCid || String.eqb o SortBySubs || String.eqb o SortByPending
  || String.eqb o SortByOutMsgs || String.eqb o SortByInMsgs
  || String.eqb o SortByOutBytes || String.eqb o SortByInBytes.

(** A [sort.Interface] over [[]*ConnInfo] is determined by its [Less]. *)
Definition Less := ConnInfo -> ConnInfo -> bool.

(** Modelled from the spec: the util package's [ByCid], [BySubs], ...
    (not in src/) compare one field with [<]; the spec fixes ascending
    order on the id and, through [sort.Reverse], descending order on the
    counters. *)
Definition by_key (key : ConnInfo -> Z) : Less := fun a b => key a <? key b.
Definition ByCid : Less := by_key Cid.
Definition BySubs : Less := by_key NumSubs.
Definition ByPending : Less := by_key Pending.
Definition ByMsgsTo : Less := by_key cOutMsgs.
Definition ByMsgsFrom : Less := by_key cInMsgs.
Definition ByBytesTo : Less := by_key cOutBytes.
Definition ByBytesFrom : Less := by_key cInBytes.

(** [sort.Reverse]: [Less(i, j)] is the wrapped [Less(j, i)]. *)
Definition Reverse (less : Less) : Less := fun a b => less b a.

(** [sort.Sort] of the Go library, by insertion: its result is a
    permutation of its input ordered by [less]; the order it leaves
    between equal elements is not used below. *)
Fixpoint insert_by (less : Less) (x : ConnInfo) (l : list ConnInfo) : list ConnInfo :=
  match l with
  | [] => [x]
  | y :: l' => if less y x then y :: insert_by less x l' else x :: l
  end.

Fixpoint sort_Sort (less : Less) (l : list ConnInfo) : list ConnInfo :=
  match l with
  | [] => []
  | x :: l' => insert_by less x (sort_Sort less l')
  end.

(** The [switch engine.SortOpt] of [generateParagraph]: the new contents
    of the [stats.Connz.Conns] slice, which [sort.Sort] reorders in place. *)
Definition sort_conns (opt : string) (cs : list ConnInfo) : list ConnInfo :=
  if String.eqb opt SortByCid then sort_Sort ByCid cs
  else if String.eqb opt SortBySubs then sort_Sort (Reverse BySubs) cs
  else if String.eqb opt SortByPending then sort_Sort (Reverse ByPending) cs
  else if String.eqb opt SortByOutMsgs then sort_Sort (Reverse ByMsgsTo) cs
  else if String.eqb opt SortByInMsgs then sort_Sort (Reverse ByMsgsFrom) cs
  else if String.eqb opt SortByOutBytes then sort_Sort (Reverse ByBytesTo) cs
  else if String.eqb opt SortByInBytes then sort_Sort (Reverse ByBytesFrom) cs
  else cs.

(* ------------------------------------------------------------------ *)
(** ** [generateParagraph]

    The text is the concatenation of [fmt.Sprintf] results; each one is
    kept as the format and its arguments.  [Psize] (util package, float
    formatting) is kept as the integer it is applied to. *)

Inductive FmtArg :=
| AStr (s : string)
| AInt (z : Z)
| AFloat (q : float64)
| APsize (z : Z).

Record Piece := Sprintf { pfmt : string; pargs : list FmtArg }.

Definition Text := list Piece.

(** [int64(f)] for a float in range: truncation toward zero. *)
Definition int64_of_float (q : float64) : Z := Z.quot (Qnum q) (Zpos (Qden q)).

Definition info_fmt : string :=
  "gnatsd version %s (uptime: %s)"
  ++ "
Server:
  Load: CPU:  %.1f%%  Memory: %s  Slow Consumers: %d
"
  ++ "  In:   Msgs: %s  Bytes: %s  Msgs/Sec: %.1f  Bytes/Sec: %s
"
  ++ "  Out:  Msgs: %s  Bytes: %s  Msgs/Sec: %.1f  Bytes/Sec: %s".

Definition connHeader (displaySubs : bool) : string :=
  "  %-20s %-8s %-15s %-6s  %-10s  %-10s  %-10s  %-10s  %-10s  %-7s  %-7s  %-7s  %-40s"
  ++ (if displaySubs then "%13s" else "") ++ "
".

Definition connValues (displaySubs : bool) : string :=
  "  %-20s %-8d %-15s %-6d  %-10s  %-10s  %-10s  %-10s  %-10s  %-7s  %-7s  %-7s  %-40s"
  ++ (if displaySubs then "%s" else "") ++ "
".

(** Everything [generateParagraph] renders before the connection rows. *)
Definition header_text (engine : Engine) (stats : Stats) : Text :=
  let v := Varz_of stats in
  let r := Rates_of stats in
  let serverVersion := match Info v with Some i => Version i | None => "" end in
  let displaySubs := DisplaySubs engine in
  [Sprintf info_fmt
     [AStr serverVersion; AStr (Uptime v);
      AFloat (CPU v); APsize (Mem v); AInt (SlowConsumers v);
      APsize (InMsgs v); APsize (InBytes v); AFloat (InMsgsRate r);
      APsize (int64_of_float (InBytesRate r));
      APsize (OutMsgs v); APsize (OutBytes v); AFloat (OutMsgsRate r);
      APsize (int64_of_float (OutBytesRate r))];
   Sprintf "

Connections: %d
" [AInt (NumConns (Connz_of stats))];
   Sprintf (connHeader displaySubs)
     (map AStr (["HOST"; "CID"; "NAME"; "SUBS"; "PENDING"; "MSGS_TO"; "MSGS_FROM";
                 "BYTES_TO"; "BYTES_FROM"; "LANG"; "VERSION"; "UPTIME"; "LAST ACTIVITY"]
                ++ (if displaySubs then ["SUBSCRIPTIONS"] else []))%list)].

(** One row of the connection table. *)
Definition connLine (displaySubs : bool) (conn : ConnInfo) : Piece :=
  let host := IP conn ++ ":" ++ fmt_d (Port conn) in
  Sprintf (connValues displaySubs)
    ([AStr host; AInt (Cid conn); AStr (Name conn); AInt (NumSubs conn);
      APsize (Pending conn); APsize (cOutMsgs conn); APsize (cInMsgs conn);
      APsize (cOutBytes conn); APsize (cInBytes conn); AStr (Lang conn);
      AStr (cVersion conn); AStr (cUptime conn); AStr (LastActivity conn)]
     ++ (if displaySubs then [AStr (join ", " (Subs conn))] else []))%list.

(** [generateParagraph(engine, stats)]: the returned text, and [*stats]
    after the call (its connection slice has been sorted in place). *)
Definition generateParagraph (engine : Engine) (stats : Stats) : Text * Stats :=
  let displaySubs := DisplaySubs engine in
  let cz := Connz_of stats in
  let sorted := sort_conns (SortOpt engine) (ConnList cz) in
  let stats' := mkStats (Varz_of stats) (mkConnz (NumConns cz) sorted) (Rates_of stats) in
  ((header_text engine stats ++ map (connLine displaySubs) sorted)%list, stats').

(* ------------------------------------------------------------------ *)
(** ** Terminal events (termui v1 over termbox)

    A key event carries either a character [Ch] (with [Key = 0]) or a
    special [Key] (with [Ch = 0]); Enter, the backspaces and Ctrl-C are
    special keys. *)

Inductive EventType :=
| EventKey | EventResize | EventMouse | EventError | EventInterrupt | EventRaw | EventNone.

(** [Type] is a keyword of Rocq: the event's [Type] field is [EType]. *)
Record Event := mkEvent { EType : EventType; Key : Z; Ch : Z }.

Definition KeyCtrlC : Z := 3.
Definition KeyBackspace : Z := 8.
Definition KeyEnter : Z := 13.
Definition KeyBackspace2 : Z := 127.

Definition isKey (e : Event) : bool :=
  match EType e with EventKey => true | _ => false end.

Definition isResize (e : Event) : bool :=
  match EType e with EventResize => true | _ => false end.

(* ------------------------------------------------------------------ *)
(** ** The state of [StartUI]

    The local variables of [StartUI] that its closures share, the
    [engine] it was given, the goroutines it spawned on invalid sort
    tokens (each as its remaining atomic actions), the goroutines blocked
    sending on [redraw], and the trace of what each thread did to the
    terminal. *)

Inductive ViewMode := TopViewMode | HelpViewMode.

Definition is_help (v : ViewMode) : bool :=
  match v with HelpViewMode => true | TopViewMode => false end.

Inductive Thread := TMain | TUpdate | TSortErr.

Inductive Op :=
| OWrite (s : string)          (* fmt.Print / fmt.Printf to the terminal *)
| OSleep (secs : Z)            (* time.Sleep *)
| ORender (rows : ViewMode)    (* ui.Render(ui.Body) with the grid's rows *)
| OAlign                       (* ui.Body.Align() after a resize *)
| OCloseShutdown               (* close(shutdownCh) *)
| OUiClose                     (* ui.Close(): terminal mode restored *)
| OExit (code : Z).            (* os.Exit *)

(** The body of the goroutine spawned on an invalid sort token, one
    constructor per statement. *)
Inductive GoAct := GPrintInvalid | GClearWaitingSort | GSleep | GRefreshHeader | GClearBuf.

Definition sort_err_go : list GoAct :=
  [GPrintInvalid; GClearWaitingSort; GSleep; GRefreshHeader; GClearBuf].

Record State := mkState {
  engine : Engine;
  waitingSortOption : bool;
  waitingLimitOption : bool;
  displaySubscriptions : bool;
  optionBuf : string;
  viewMode : ViewMode;
  bodyRows : ViewMode;
  parText : Text;
  goroutines : list (list GoAct);
  updSending : bool;
  resizeSenders : nat;
  exited : bool;
  tty : list (Thread * Op)
}.

Definition set_engine x s := mkState x (waitingSortOption s) (waitingLimitOption s) (displaySubscriptions s) (optionBuf s) (viewMode s) (bodyRows s) (parText s) (goroutines s) (updSending s) (resizeSenders s) (exited s) (tty s).
Definition set_ws x s := mkState (engine s) x (waitingLimitOption s) (displaySubscriptions s) (optionBuf s) (viewMode s) (bodyRows s) (parText s) (goroutines s) (updSending s) (resizeSenders s) (exited s) (tty s).
Definition set_wl x s := mkState (engine s) (waitingSortOption s) x (displaySubscriptions s) (optionBuf s) (viewMode s) (bodyRows s) (parText s) (goroutines s) (updSending s) (resizeSenders s) (exited s) (tty s).
Definition set_ds x s := mkState (engine s) (waitingSortOption s) (waitingLimitOption s) x (optionBuf s) (viewMode s) (bodyRows s) (parText s) (goroutines s) (updSending s) (resizeSenders s) (exited s) (tty s).
Definition set_buf x s := mkState (engine s) (waitingSortOption s) (waitingLimitOption s) (displaySubscriptions s) x (viewMode s) (bodyRows s) (parText s) (goroutines s) (updSending s) (resizeSenders s) (exited s) (tty s).
Definition set_view x s := mkState (engine s) (waitingSortOption s) (waitingLimitOption s) (displaySubscriptions s) (optionBuf s) x (bodyRows s) (parText s) (goroutines s) (updSending s) (resizeSenders s) (exited s) (tty s).
Definition set_rows x s := mkState (engine s) (waitingSortOption s) (waitingLimitOption s) (displaySubscriptions s) (optionBuf s) (viewMode s) x (parText s) (goroutines s) (updSending s) (resizeSenders s) (exited s) (tty s).
Definition set_par x s := mkState (engine s) (waitingSortOption s) (waitingLimitOption s) (displaySubscriptions s) (optionBuf s) (viewMode s) (bodyRows s) x (goroutines s) (updSending s) (resizeSenders s) (exited s) (tty s).
Definition set_gos x s := mkState (engine s) (waitingSortOption s) (waitingLimitOption s) (displaySubscriptions s) (optionBuf s) (viewMode s) (bodyRows s) (parText s) x (updSending s) (resizeSenders s) (exited s) (tty s).
Definition set_upd x s := mkState (engine s) (waitingSortOption s) (waitingLimitOption s) (displaySubscriptions s) (optionBuf s) (viewMode s) (bodyRows s) (parText s) (goroutines s) x (resizeSenders s) (exited s) (tty s).
Definition set_resize x s := mkState (engine s) (waitingSortOption s) (waitingLimitOption s) (displaySubscriptions s) (optionBuf s) (viewMode s) (bodyRows s) (parText s) (goroutines s) (updSending s) x (exited s) (tty s).
Definition set_exited x s := mkState (engine s) (waitingSortOption s) (waitingLimitOption s) (displaySubscriptions s) (optionBuf s) (viewMode s) (bodyRows s) (parText s) (goroutines s) (updSending s) (resizeSenders s) x (tty s).

(** A thread's action on the terminal. *)
Definition emit (t : Thread) (o : Op) (s : State) : State :=
  mkState (engine s) (waitingSortOption s) (waitingLimitOption s) (displaySubscriptions s) (optionBuf s) (viewMode s) (bodyRows s) (parText s) (goroutines s) (updSending s) (resizeSenders s) (exited s) (tty s ++ [(t, o)])%list.

Definition with_SortOpt (o : string) (e : Engine) : Engine :=
  mkEngine (Conns e) (Delay e) o (DisplaySubs e).
Definition with_Conns (n : Z) (e : Engine) : Engine :=
  mkEngine n (Delay e) (SortOpt e) (DisplaySubs e).
Definition with_DisplaySubs (b : bool) (e : Engine) : Engine :=
  mkEngine (Conns e) (Delay e) (SortOpt e) b.

(* ------------------------------------------------------------------ *)
(** ** Terminal output of the event loop *)

(** ["\033[1;1H\033[6;1H"]: cursor to the prompt line. *)
Definition to_prompt : string := ESC ++ "[1;1H" ++ ESC ++ "[6;1H".

Fixpoint spaces (n : nat) : string :=
  match n with O => "" | S n' => " " ++ spaces n' end.

(** The mask [refreshOptionHeader] prints for the current [optionBuf]. *)
Definition clrline (optionBuf : string) : string :=
  to_prompt ++ spaces 18 ++ "  " ++ spaces (2 * String.length optionBuf).

Definition refreshOptionHeader (t : Thread) (s : State) : State :=
  emit t (OWrite (clrline (optionBuf s))) s.

Definition invalid_msg (optionBuf : string) : string :=
  to_prompt ++ "invalid order: " ++ optionBuf ++ "       ".

Definition sort_prompt (s : State) : string :=
  to_prompt ++ "sort by [" ++ SortOpt (engine s) ++ "]: " ++ optionBuf s.

Definition limit_prompt (s : State) : string :=
  to_prompt ++ "limit   [" ++ fmt_d (Conns (engine s)) ++ "]: " ++ optionBuf s.

Definition clearScreen_seq : string := ESC ++ "[2J" ++ ESC ++ "[1;1H" ++ ESC ++ "[?25l".
Definition showCursor_seq : string := ESC ++ "[?25h".

(** [close(shutdownCh); cleanExit()]: [os.Exit] ends the process, so the
    deferred [ui.Close] of [main] does not run. *)
Definition quit (s : State) : State :=
  set_exited true
    (emit TMain (OExit 0)
      (emit TMain (OWrite showCursor_seq)
        (emit TMain OUiClose
          (emit TMain (OWrite clearScreen_seq)
            (emit TMain OCloseShutdown s))))).

(* ------------------------------------------------------------------ *)
(** ** One iteration of the [for { select { case e := <-evt: ... } }] loop

    The [case e := <-evt] body is a sequence of [if] statements; a block
    either falls through to the next one, ends the iteration with
    [continue], or ends the process through [cleanExit]. *)

Inductive Flow := Fall (s : State) | Cont (s : State) | Halt (s : State).

Definition bind (f : Flow) (k : State -> Flow) : Flow :=
  match f with Fall s => k s | Cont s => Cont s | Halt s => Halt s end.

Notation "f >>= k" := (bind f k) (at level 50, left associativity).

Definition flow_state (f : Flow) : State :=
  match f with Fall s | Cont s | Halt s => s end.

(** Backspace with a non-empty buffer drops its last byte, anything else
    appends [string(e.Ch)] (shared by both capture modes). *)
Definition edit_buf (e : Event) (s : State) : State :=
  if isKey e && (0 <? String.length (optionBuf s))%nat
     && ((Key e =? KeyBackspace) || (Key e =? KeyBackspace2))
  then refreshOptionHeader TMain (set_buf (drop_last_byte (optionBuf s)) s)
  else set_buf (optionBuf s ++ utf8_of_rune (Ch e)) s.

(** [if waitingSortOption { ... }] *)
Definition sort_block (e : Event) (s : State) : Flow :=
  if waitingSortOption s then
    if isKey e && (Key e =? KeyEnter) then
      let sortOpt := optionBuf s in
      if is_sort_opt sortOpt then
        let s := set_engine (with_SortOpt sortOpt (engine s)) s in
        let s := refreshOptionHeader TMain s in
        Cont (set_buf "" (set_ws false s))
      else
        Cont (set_gos (goroutines s ++ [sort_err_go])%list s)
    else
      let s := edit_buf e s in
      Fall (emit TMain (OWrite (sort_prompt s)) s)
  else Fall s.

(** [if waitingLimitOption { ... }] *)
Definition limit_block (e : Event) (s : State) : Flow :=
  if waitingLimitOption s then
    if isKey e && (Key e =? KeyEnter) then
      let s := match Sscanf_d (optionBuf s) with
               | Some n => set_engine (with_Conns n (engine s)) s
               | None => s
               end in
      Cont (refreshOptionHeader TMain (set_buf "" (set_wl false s)))
    else
      let s := edit_buf e s in
      Fall (emit TMain (OWrite (limit_prompt s)) s)
  else Fall s.

Definition quit_block (e : Event) (s : State) : Flow :=
  if isKey e && ((Ch e =? 113) || (Key e =? KeyCtrlC)) then Halt (quit s) else Fall s.

Definition subs_block (e : Event) (s : State) : Flow :=
  if isKey e && (Ch e =? 115) && negb (waitingLimitOption s || waitingSortOption s) then
    if displaySubscriptions s then
      Fall (set_engine (with_DisplaySubs false (engine s)) (set_ds false s))
    else
      Fall (set_engine (with_DisplaySubs true (engine s)) (set_ds true s))
  else Fall s.

Definition help_dismiss_block (e : Event) (s : State) : Flow :=
  if isKey e && is_help (viewMode s) then
    Cont (set_view TopViewMode (set_rows TopViewMode s))
  else Fall s.

Definition sort_key_block (e : Event) (s : State) : Flow :=
  if isKey e && (Ch e =? 111) && negb (waitingLimitOption s) && negb (is_help (viewMode s)) then
    Fall (set_ws true
      (emit TMain (OWrite (to_prompt ++ "sort by [" ++ SortOpt (engine s) ++ "]:")) s))
  else Fall s.

Definition limit_key_block (e : Event) (s : State) : Flow :=
  if isKey e && (Ch e =? 110) && negb (waitingSortOption s) && negb (is_help (viewMode s)) then
    Fall (set_wl true
      (emit TMain (OWrite (to_prompt ++ "limit   [" ++ fmt_d (Conns (engine s)) ++ "]:")) s))
  else Fall s.

Definition help_key_block (e : Event) (s : State) : Flow :=
  if isKey e && ((Ch e =? 63) || (Ch e =? 104))
     && negb (waitingSortOption s || waitingLimitOption s) then
    let s := if is_help (viewMode s) then s
             else set_buf "" (refreshOptionHeader TMain s) in
    Fall (set_ws false (set_wl false (set_view HelpViewMode (set_rows HelpViewMode s))))
  else Fall s.

(** [ui.Body.Align()] and [go func() { redraw <- struct{}{} }()]. *)
Definition resize_block (e : Event) (s : State) : Flow :=
  if isResize e then Fall (set_resize (S (resizeSenders s)) (emit TMain OAlign s))
  else Fall s.

Definition handle_evt (e : Event) (s : State) : Flow :=
  sort_block e s >>= limit_block e >>= quit_block e >>= subs_block e
  >>= help_dismiss_block e >>= sort_key_block e >>= limit_key_block e
  >>= help_key_block e >>= resize_block e.

(** The event loop handling one terminal event. *)
Definition main_evt (e : Event) (s : State) : State :=
  if exited s then s else flow_state (handle_evt e s).

Fixpoint main_evts (es : list Event) (s : State) : State :=
  match es with [] => s | e :: es' => main_evts es' (main_evt e s) end.

(** [case <-redraw: ui.Render(ui.Body)] *)
Definition render (s : State) : State := emit TMain (ORender (bodyRows s)) s.

(** One statement of the invalid-sort-token goroutine.  The closure reads
    and writes [StartUI]'s variables, not copies. *)
Definition exec_act (a : GoAct) (s : State) : State :=
  match a with
  | GPrintInvalid => emit TSortErr (OWrite (invalid_msg (optionBuf s))) s
  | GClearWaitingSort => set_ws false s
  | GSleep => emit TSortErr (OSleep 1) s
  | GRefreshHeader => refreshOptionHeader TSortErr s
  | GClearBuf => set_buf "" s
  end.

Definition run_go (acts : list GoAct) (s : State) : State :=
  fold_left (fun s a => exec_act a s) acts s.

(** One iteration of [update]: the new snapshot is formatted into
    [par.Text], then the goroutine blocks on [redraw <- struct{}{}]. *)
Definition update_step (stats : Stats) (s : State) : State :=
  set_upd true (set_par (fst (generateParagraph (engine s) stats)) s).

(** Interleaving semantics: each step is an atomic action of one thread. *)
Inductive tstep : State -> Thread -> State -> Prop :=
| step_event e s :
    exited s = false -> tstep s TMain (main_evt e s)
| step_redraw_update s :
    exited s = false -> updSending s = true -> tstep s TMain (render (set_upd false s))
| step_redraw_resize s n :
    exited s = false -> resizeSenders s = S n -> tstep s TMain (render (set_resize n s))
| step_update stats s :
    exited s = false -> updSending s = false -> tstep s TUpdate (update_step stats s)
| step_sort_err gs1 a rest gs2 s :
    exited s = false -> goroutines s = (gs1 ++ (a :: rest) :: gs2)%list ->
    tstep s TSortErr (exec_act a (set_gos (gs1 ++ rest :: gs2)%list s)).

(** [main] builds [engine] from the flags (the sort flag must be a sort
    token, or [main] exits), then [StartUI] paints [cleanStats]. *)
Definition init_state (conns delay : Z) (sortBy : string) : State :=
  let eng := mkEngine conns delay sortBy false in
  mkState eng false false false "" TopViewMode TopViewMode
    (fst (generateParagraph eng cleanStats)) [] false 0 false [(TMain, ORender TopViewMode)].

Inductive reachable : State -> Prop :=
| reach_init conns delay sortBy :
    is_sort_opt sortBy = true -> reachable (init_state conns delay sortBy)
| reach_step s t s' : reachable s -> tstep s t s' -> reachable s'.

(** Runs of one thread alone. *)
Inductive steps_of (t : Thread) : State -> State -> Prop :=
| steps_refl s : steps_of t s s
| steps_cons s s1 s2 : tstep s t s1 -> steps_of t s1 s2 -> steps_of t s s2.

(** Key events as termbox delivers them. *)
Definition key_ch (c : Z) : Event := mkEvent EventKey 0 c.
Definition enterEvt : Event := mkEvent EventKey KeyEnter 0.
Definition backspace2Evt : Event := mkEvent EventKey KeyBackspace2 0.
Definition ctrlCEvt : Event := mkEvent EventKey KeyCtrlC 0.

(** A quit key as termbox delivers it: ['q'], or Ctrl-C. *)
Definition quit_event (e : Event) : Prop :=
  isKey e = true /\ ((Ch e = 113 /\ Key e = 0) \/ (Key e = KeyCtrlC /\ Ch e = 0)).

(** The order the spec gives to the rows for each sort token: ascending
    on the id, descending on the counters. *)
Definition spec_row_order (o : string) : option (ConnInfo -> ConnInfo -> Prop) :=
  if String.eqb o SortByCid then Some (fun a b => Cid a <= Cid b)
  else if String.eqb o SortBySubs then Some (fun a b => NumSubs b <= NumSubs a)
  else if String.eqb o SortByPending then Some (fun a b => Pending b <= Pending a)
  else if String.eqb o SortByOutMsgs then Some (fun a b => cOutMsgs b <= cOutMsgs a)
  else if String.eqb o SortByInMsgs then Some (fun a b => cInMsgs b <= cInMsgs a)
  else if String.eqb o SortByOutBytes then Some (fun a b => cOutBytes b <= cOutBytes a)
  else if String.eqb o SortByInBytes then Some (fun a b => cInBytes b <= cInBytes a)
  else None.

(** The single-writer discipline as the spec states it: a step of any
    thread other than the event loop changes neither the configuration,
    the capture flags and buffer, the paragraph text, nor the terminal. *)
Definition event_loop_only_writer : Prop :=
  forall s t s', reachable s -> tstep s t s' -> t <> TMain ->
    engine s' = engine s /\ waitingSortOption s' = waitingSortOption s
    /\ waitingLimitOption s' = waitingLimitOption s /\ optionBuf s' = optionBuf s
    /\ parText s' = parText s /\ tty s' = tty s.

(** A connection record that differs from others only by its id. *)
Definition sample_conn (cid : Z) : ConnInfo :=
  mkConnInfo cid "127.0.0.1" 4222 "" 0 0 0 0 0 0 "go" "1.0" "1s" "" [].

(** A snapshot holding connections 2 and 1, in that order. *)
Definition sample_stats : Stats :=
  mkStats (Varz_of cleanStats) (mkConnz 2 [sample_conn 2; sample_conn 1]) (Rates_of cleanStats).

Definition sample_engine : Engine := mkEngine 1024 1 SortByCid false.

(* ------------------------------------------------------------------ *)
(** ** [main]: flags, TLS set-up and the checks before [StartUI]

    The file system and the TLS library are the [OS] record: a read or a
    key-pair load returns its data or the error text [log.Fatalf] prints.
    [log.Fatalf] exits with status 1; [panic] on a failed [ui.Init] is
    [MPanic]. *)

Definition version : string := "0.2.0".

Definition usageHelp : string := "
usage: nats-top [-s server] [-m http_port] [-ms https_port] [-n num_connections] [-d delay_secs] [-sort by]
                [-cert FILE] [-key FILE ][-cacert FILE] [-k]
".

Record Flags := mkFlags {
  host : string;
  port : Z;
  conns : Z;
  delay : Z;
  sortBy : string;
  showVersion : bool;
  httpsPort : Z;
  certOpt : string;
  keyOpt : string;
  caCertOpt : string;
  skipVerifyOpt : bool
}.

Record OS := mkOS {
  ReadFile : string -> string + string;
  LoadX509KeyPair : string -> string -> string + string;
  uiInitOk : bool
}.

(** The [tls.Config] fields [main] sets: the CA file's contents (appended
    to a fresh pool, the result of [AppendCertsFromPEM] being ignored), the
    loaded client certificates and the skip-verify flag. *)
Record TLSConfig := mkTLS {
  RootCAs : option string;
  Certificates : list string;
  InsecureSkipVerify : bool
}.

Inductive MainResult :=
| MExit (code : Z) (out : list string)
| MPanic
| MStart (eng : Engine) (uri : string) (tls : option TLSConfig).

(** The secure-port branch of [main]: [inl] the TLS config, or [inr] the
    message of the [log.Fatalf] that ends the process. *)
Definition tls_setup (os : OS) (f : Flags) : option TLSConfig + string :=
  let roots :=
    if String.eqb (caCertOpt f) "" then inl None
    else match ReadFile os (caCertOpt f) with
         | inl pem => inl (Some pem)
         | inr err => inr ("Error: " ++ err)
         end in
  match roots with
  | inr m => inr m
  | inl rootCAs =>
    let certs :=
      if negb (String.eqb (certOpt f) "") && negb (String.eqb (keyOpt f) "") then
        match LoadX509KeyPair os (certOpt f) (keyOpt f) with
        | inl cert => inl [cert]
        | inr err => inr ("Error: " ++ err)
        end
      else inl [] in
    match certs with
    | inr m => inr m
    | inl cs => inl (Some (mkTLS rootCAs cs (skipVerifyOpt f)))
    end
  end.

Definition main_setup (os : OS) (f : Flags) : MainResult :=
  if showVersion f then MExit 0 ["nats-top v" ++ version] else
  let eng := mkEngine (conns f) (delay f) "" false in
  let conf :=
    if negb (httpsPort f =? 0) then
      match tls_setup os f with
      | inl tls => inl (tls, "https://" ++ host f ++ ":" ++ fmt_d (httpsPort f))
      | inr m => inr m
      end
    else inl (None, "http://" ++ host f ++ ":" ++ fmt_d (port f)) in
  match conf with
  | inr m => MExit 1 [m]
  | inl (tls, uri) =>
    if String.eqb (host f) "" then
      MExit 1 ["Please specify the monitoring endpoint for NATS.
"]
    else if (port f =? 0) && (httpsPort f =? 0) then
      MExit 1 ["Please specify the monitoring port for NATS.
"]
    else if is_sort_opt (sortBy f) then
      if uiInitOk os then MStart (with_SortOpt (sortBy f) eng) uri tls else MPanic
    else MExit 1 ["nats-top: not a valid option to sort by: " ++ sortBy f ++ "
"; usageHelp]
  end.

(** The number of arguments a [fmt] format consumes: one per verb, none
    for [%%] (the formats here use no [*] width). *)
Fixpoint fmt_verbs (s : string) : nat :=
  match s with
  | String "%" (String "%" r) => fmt_verbs r
  | String "%" r => S (fmt_verbs r)
  | String _ r => fmt_verbs r
  | EmptyString => O
  end.

(** Command lines used in the examples: [-s localhost -m 8222], and
    [-s localhost -ms 8443] with a CA file, a client key pair and an
    optional sort flag. *)
Definition sample_flags (sortBy : string) : Flags :=
  mkFlags "localhost" 8222 1024 1 sortBy false 0 "" "" "" false.

Definition sample_tls_flags (cert key ca : string) : Flags :=
  mkFlags "localhost" 0 1024 1 SortByCid false 8443 cert key ca false.

(** A file system where every file reads as "pem" and every key pair
    loads, and one where nothing can be read. *)
Definition sample_os : OS := mkOS (fun _ => inl "pem") (fun _ _ => inl "cert") true.

Definition missing_file_os : OS :=
  mkOS (fun p => inr ("open " ++ p ++ ": no such file or directory"))
       (fun c _ => inr ("open " ++ c ++ ": no such file or directory")) true.

Definition resizeEvt : Event := mkEvent EventResize 0 0.

(* ================================================================== *)
(** * Properties *)

(** ** The event loop's invariant

    The two capture flags are never both set; outside both capture modes
    the buffer is empty unless an invalid-token goroutine has still to run
    its [optionBuf = ""]; every spawned goroutine is a suffix of its body. *)

Definition sort_err_suffixes : list (list GoAct) :=
  [sort_err_go; [GClearWaitingSort; GSleep; GRefreshHeader; GClearBuf];
   [GSleep; GRefreshHeader; GClearBuf]; [GRefreshHeader; GClearBuf]; [GClearBuf]; []].

Definition pending_clear (s : State) : Prop := In GClearBuf (List.concat (goroutines s)).

Definition loop_inv (s : State) : Prop :=
  negb (waitingSortOption s && waitingLimitOption s) = true
  /\ (waitingSortOption s = false -> waitingLimitOption s = false ->
      ~ pending_clear s -> optionBuf s = "")
  /\ Forall (fun g => In g sort_err_suffixes) (goroutines s).

(** What the event loop keeps in step with its view and toggle: the
    engine's [DisplaySubs] mirrors [displaySubscriptions], the grid shown
    is the one of [viewMode], and the Help view is never in a capture
    mode. *)
Definition view_inv (s : State) : Prop :=
  DisplaySubs (engine s) = displaySubscriptions s /\ bodyRows s = viewMode s
  /\ (viewMode s = HelpViewMode ->
      waitingSortOption s = false /\ waitingLimitOption s = false).

(** The byte [digits_of_pos] writes for the last decimal digit of [z]. *)
Definition digit_char (z : Z) : ascii := ascii_of_nat (48 + Z.to_nat (z mod 10)).




Lemma bind_pres (P : State -> Prop) (f : Flow) (k : State -> Flow) :
  P (flow_state f) -> (forall s, P s -> P (flow_state (k s))) ->
  P (flow_state (f >>= k)).
Proof. destruct f; simpl; auto. Qed.

Ltac break_ifs :=
  repeat match goal with
  | |- context [if ?c then _ else _] => let E := fresh "E" in destruct c eqn:E
  | |- context [match Sscanf_d ?b with _ => _ end] => destruct (Sscanf_d b)
  end.

Ltac block_inv :=
  intros e [eng ws wl ds buf vm rows par gos upd rs ex tt] [Hx [Hb Hf]];
  destruct ws, wl; cbn in Hx; try discriminate Hx;
  unfold loop_inv, pending_clear in *;
  unfold sort_block, limit_block, quit_block, subs_block, help_dismiss_block,
    sort_key_block, limit_key_block, help_key_block, resize_block, edit_buf in *;
  cbn in *; break_ifs; cbn in *;
  repeat match goal with
  | H : (_ && _)%bool = true |- _ => apply andb_prop in H; destruct H
  | H : negb _ = true |- _ => apply negb_true_iff in H
  | H : (_ || _)%bool = false |- _ => apply orb_false_elim in H; destruct H
  end; subst; cbn in *;
  repeat split; auto; try discriminate.

Lemma sort_block_inv : forall e s, loop_inv s -> loop_inv (flow_state (sort_block e s)).
Proof.
  block_inv. apply Forall_app; split; auto.
Qed.

Lemma limit_block_inv : forall e s, loop_inv s -> loop_inv (flow_state (limit_block e s)).
Proof. block_inv. Qed.

Lemma quit_block_inv : forall e s, loop_inv s -> loop_inv (flow_state (quit_block e s)).
Proof. block_inv. Qed.

Lemma subs_block_inv : forall e s, loop_inv s -> loop_inv (flow_state (subs_block e s)).
Proof. block_inv. Qed.

Lemma help_dismiss_block_inv : forall e s,
  loop_inv s -> loop_inv (flow_state (help_dismiss_block e s)).
Proof. block_inv. Qed.

Lemma sort_key_block_inv : forall e s,
  loop_inv s -> loop_inv (flow_state (sort_key_block e s)).
Proof. block_inv. Qed.

Lemma limit_key_block_inv : forall e s,
  loop_inv s -> loop_inv (flow_state (limit_key_block e s)).
Proof. block_inv. Qed.

Lemma help_key_block_inv : forall e s,
  loop_inv s -> loop_inv (flow_state (help_key_block e s)).
Proof. block_inv. Qed.

Lemma resize_block_inv : forall e s,
  loop_inv s -> loop_inv (flow_state (resize_block e s)).
Proof. block_inv. Qed.

Lemma main_evt_inv : forall e s, loop_inv s -> loop_inv (main_evt e s).
Proof.
  intros e s H. unfold main_evt. destruct (exited s); auto.
  unfold handle_evt.
  repeat (apply bind_pres; [|intros ? ?]).
  all: first [ apply sort_block_inv | apply limit_block_inv | apply quit_block_inv
             | apply subs_block_inv | apply help_dismiss_block_inv
             | apply sort_key_block_inv | apply limit_key_block_inv
             | apply help_key_block_inv | apply resize_block_inv ]; auto.
Qed.

Lemma suffix_tail (a : GoAct) (rest : list GoAct) :
  In (a :: rest) sort_err_suffixes ->
  In rest sort_err_suffixes /\ (a <> GClearBuf -> In GClearBuf rest).
Proof.
  cbn; intros H.
  repeat destruct H as [H | H]; try contradiction; inversion H; subst;
    split; cbn; try tauto; intros Hc; exfalso; apply Hc; reflexivity.
Qed.

Lemma sort_err_step_inv (gs1 : list (list GoAct)) (a : GoAct) (rest : list GoAct)
  (gs2 : list (list GoAct)) (s : State) :
  loop_inv s -> goroutines s = (gs1 ++ (a :: rest) :: gs2)%list ->
  loop_inv (exec_act a (set_gos (gs1 ++ rest :: gs2)%list s)).
Proof.
  destruct s as [eng ws wl ds buf vm rows par gos upd rs ex tt].
  unfold loop_inv, pending_clear; cbn.
  intros [Hx [Hb Hf]] Hg; subst gos.
  apply Forall_app in Hf as [Hf1 Hf2]. inversion Hf2 as [|? ? Hin Hf3]; subst.
  destruct (suffix_tail a rest Hin) as [Hrest Hcl].
  assert (Hf' : Forall (fun g => In g sort_err_suffixes) (gs1 ++ rest :: gs2)%list)
    by (apply Forall_app; split; [exact Hf1 | constructor; assumption]).
  assert (Hp : a <> GClearBuf -> In GClearBuf (List.concat (gs1 ++ rest :: gs2)%list)).
  { intros Ha. rewrite List.concat_app. apply in_or_app. right. cbn.
    apply in_or_app. left. apply Hcl, Ha. }
  destruct a; cbn; repeat split; auto;
    try (intros _ _ Hn; exfalso; apply Hn, Hp; discriminate).
Qed.

Lemma tstep_inv (s : State) (t : Thread) (s' : State) :
  loop_inv s -> tstep s t s' -> loop_inv s'.
Proof.
  intros H Hs. destruct Hs as [e s Hx|s Hx Hu|s n Hx Hn|stats s Hx Hu|gs1 a rest gs2 s Hx Hg].
  - apply main_evt_inv, H.
  - destruct s; exact H.
  - destruct s; exact H.
  - destruct s; exact H.
  - eapply sort_err_step_inv; eauto.
Qed.

Lemma reachable_inv (s : State) : reachable s -> loop_inv s.
Proof.
  induction 1 as [c d o Ho | s t s' _ IH Hs].
  - unfold loop_inv, pending_clear; cbn. repeat split; auto.
  - eapply tstep_inv; eauto.
Qed.

Lemma main_evts_inv (es : list Event) : forall s, loop_inv s -> loop_inv (main_evts es s).
Proof. induction es as [|e es IH]; cbn; auto using main_evt_inv. Qed.

(** ** C1: the two capture modes exclude each other *)

(** C1.  In every state reachable from [StartUI]'s start, under any
    interleaving of the event loop with the goroutines, and after any
    further sequence of input events, [waitingSortOption] and
    [waitingLimitOption] are never both true. *)
Theorem awaiting_modes_exclusive (s : State) (Hr : reachable s) (es : list Event) :
  ~ (waitingSortOption (main_evts es s) = true /\ waitingLimitOption (main_evts es s) = true).
Proof.
  destruct (main_evts_inv es s (reachable_inv s Hr)) as [Hx _].
  intros [H1 H2]. rewrite H1, H2 in Hx. discriminate.
Qed.

(** ** C2: an unrecognised sort token *)

Lemma exec_act_set_gos (a : GoAct) (x : list (list GoAct)) (s : State) :
  exec_act a (set_gos x s) = set_gos x (exec_act a s).
Proof. destruct a, s; reflexivity. Qed.

Lemma run_go_set_gos (acts : list GoAct) : forall x s,
  run_go acts (set_gos x s) = set_gos x (run_go acts s).
Proof.
  induction acts as [|a acts IH]; intros x s; [reflexivity|].
  cbn. rewrite exec_act_set_gos. apply IH.
Qed.

Lemma set_gos_set_gos (x y : list (list GoAct)) (s : State) :
  set_gos y (set_gos x s) = set_gos y s.
Proof. destruct s; reflexivity. Qed.

Lemma exec_act_exited (a : GoAct) (s : State) : exited (exec_act a s) = exited s.
Proof. destruct a, s; reflexivity. Qed.

Lemma exec_act_goroutines (a : GoAct) (s : State) :
  goroutines (exec_act a s) = goroutines s.
Proof. destruct a, s; reflexivity. Qed.

(** The last spawned goroutine, run alone to its end. *)
Lemma run_last_goroutine (gos : list (list GoAct)) (body : list GoAct) : forall s,
  exited s = false -> goroutines s = (gos ++ [body])%list ->
  steps_of TSortErr s (set_gos (gos ++ [[]])%list (run_go body s)).
Proof.
  induction body as [|a body IH]; intros s Hx Hg.
  - cbn. replace (set_gos (gos ++ [[]])%list s) with s; [constructor|].
    destruct s; cbn in *; subst; reflexivity.
  - eapply steps_cons.
    + apply (step_sort_err gos a body [] s Hx Hg).
    + set (s1 := exec_act a (set_gos (gos ++ [body])%list s)).
      replace (set_gos (gos ++ [[]])%list (run_go (a :: body) s))
        with (set_gos (gos ++ [[]])%list (run_go body s1)).
      * apply IH; unfold s1.
        -- rewrite exec_act_exited. destruct s; exact Hx.
        -- rewrite exec_act_goroutines. destruct s; reflexivity.
      * unfold s1. rewrite exec_act_set_gos, run_go_set_gos, set_gos_set_gos.
        reflexivity.
Qed.

(** C2.  Enter on an unrecognised sort token [B] (in AwaitingSortKey
    mode) leaves [engine.SortOpt] (and the whole engine) unchanged and
    spawns the error goroutine; that goroutine, run to its end, prints
    ["invalid order: B"], sleeps one second, masks the prompt and leaves
    the loop in Normal mode with an empty buffer, the engine still
    unchanged. *)
Theorem invalid_sort_token_rejected (s : State)
  (Hx : exited s = false) (Hws : waitingSortOption s = true)
  (Hwl : waitingLimitOption s = false) (Hbad : is_sort_opt (optionBuf s) = false) :
  let s1 := main_evt enterEvt s in
  engine s1 = engine s /\ goroutines s1 = (goroutines s ++ [sort_err_go])%list /\
  exists s2, steps_of TSortErr s1 s2 /\
    engine s2 = engine s /\ waitingSortOption s2 = false /\
    waitingLimitOption s2 = false /\ optionBuf s2 = "" /\
    tty s2 = (tty s ++ [(TSortErr, OWrite (invalid_msg (optionBuf s)));
                        (TSortErr, OSleep 1);
                        (TSortErr, OWrite (clrline (optionBuf s)))])%list.
Proof.
  intros s1.
  assert (E1 : s1 = set_gos (goroutines s ++ [sort_err_go])%list s).
  { unfold s1, main_evt. rewrite Hx. unfold handle_evt, sort_block.
    rewrite Hws. cbn. rewrite Hbad. reflexivity. }
  split; [rewrite E1; destruct s; reflexivity|].
  split; [rewrite E1; destruct s; reflexivity|].
  exists (set_gos (goroutines s ++ [[]])%list (run_go sort_err_go s1)).
  split.
  - apply run_last_goroutine.
    + rewrite E1. destruct s; exact Hx.
    + rewrite E1. destruct s; reflexivity.
  - rewrite E1. destruct s; cbn in *; subst.
    repeat split; try reflexivity. rewrite <- !app_assoc. reflexivity.
Qed.

(** ** C8: quitting *)

Lemma exited_no_step (s : State) (t : Thread) (s' : State) :
  exited s = true -> ~ tstep s t s'.
Proof. intros H Hs. destruct Hs; congruence. Qed.

Ltac unfold_loop :=
  unfold main_evt, handle_evt, sort_block, limit_block, quit_block, subs_block,
    help_dismiss_block, sort_key_block, limit_key_block, help_key_block,
    resize_block, edit_buf, quit in *.

(** C8.  From every state of the loop (any capture flags, any view), a
    quit key ('q' or Ctrl-C) closes [shutdownCh] and runs [cleanExit]:
    before it the loop only echoes the prompt; [ui.Close] (the terminal
    restoration) appears exactly once, and since [os.Exit] ends the
    process no thread takes any further step. *)
Theorem quit_honoured_in_every_mode (s : State) (e : Event)
  (Hx : exited s = false) (Hq : quit_event e) :
  let s' := main_evt e s in
  exited s' = true /\
  (exists pre,
     tty s' = (tty s ++ pre ++ [(TMain, OCloseShutdown); (TMain, OWrite clearScreen_seq);
                                (TMain, OUiClose); (TMain, OWrite showCursor_seq);
                                (TMain, OExit 0)])%list
     /\ Forall (fun p => exists w, p = (TMain, OWrite w)) pre) /\
  (forall t s'', ~ tstep s' t s'').
Proof.
  destruct e as [et k c].
  destruct Hq as [Hk [[Hc Hkey] | [Hkey Hc]]]; cbn in *; subst;
    destruct et; try discriminate Hk;
    destruct s as [eng ws wl ds buf vm rows par gos upd rs ex tt]; cbn in Hx; subst;
    destruct ws, wl; unfold_loop; cbn; break_ifs; cbn;
    (split; [reflexivity|]);
    (split; [|intros t s'' Hs; eapply exited_no_step; [|exact Hs]; reflexivity]);
    rewrite <- !app_assoc; cbn;
    first [ exists []; split; [reflexivity | constructor]
          | eexists [_]; split; [reflexivity | repeat constructor; eexists; reflexivity]
          | eexists [_; _]; split; [reflexivity | repeat constructor; eexists; reflexivity]
          | eexists [_; _; _]; split; [reflexivity | repeat constructor; eexists; reflexivity]
          | eexists [_; _; _; _]; split; [reflexivity | repeat constructor; eexists; reflexivity] ].
Qed.

(** ** C9: typing [o b y t e s _ t o <enter>] *)


(** ** C6, C7: ordering of the rows, and what [generateParagraph] writes *)

Lemma insert_by_perm (less : Less) (x : ConnInfo) (l : list ConnInfo) :
  Permutation (insert_by less x l) (x :: l).
Proof.
  induction l as [|y l IH]; cbn; [reflexivity|].
  destruct (less y x); [|reflexivity].
  rewrite IH. apply perm_swap.
Qed.

Lemma sort_Sort_perm (less : Less) (l : list ConnInfo) : Permutation (sort_Sort less l) l.
Proof.
  induction l as [|x l IH]; cbn; [reflexivity|].
  rewrite insert_by_perm, IH. reflexivity.
Qed.

Section InsertionSorted.
Variable less : Less.
Variable R : ConnInfo -> ConnInfo -> Prop.
Hypothesis less_true : forall a b, less a b = true -> R a b.
Hypothesis less_false : forall a b, less a b = false -> R b a.

Lemma insert_by_hd (y x : ConnInfo) (l : list ConnInfo) :
  R y x -> HdRel R y l -> HdRel R y (insert_by less x l).
Proof.
  intros Hyx Hl. destruct l as [|z l]; cbn.
  - constructor; exact Hyx.
  - destruct (less z x); constructor; [inversion Hl; assumption | exact Hyx].
Qed.

Lemma insert_by_sorted (x : ConnInfo) (l : list ConnInfo) :
  Sorted R l -> Sorted R (insert_by less x l).
Proof.
  induction l as [|y l IH]; intros Hs; cbn.
  - repeat constructor.
  - destruct (less y x) eqn:E.
    + apply Sorted_inv in Hs as [Hs Hhd].
      constructor; [apply IH, Hs|]. apply insert_by_hd; auto.
    + constructor; [exact Hs|]. constructor. apply less_false, E.
Qed.

Lemma sort_Sort_sorted (l : list ConnInfo) : Sorted R (sort_Sort less l).
Proof.
  induction l as [|x l IH]; cbn; [constructor|]. apply insert_by_sorted, IH.
Qed.
End InsertionSorted.

Lemma by_key_sorted (key : ConnInfo -> Z) (l : list ConnInfo) :
  Sorted (fun a b => key a <= key b) (sort_Sort (by_key key) l).
Proof.
  apply sort_Sort_sorted; unfold by_key; intros a b H.
  - apply Z.ltb_lt in H. lia.
  - apply Z.ltb_ge in H. lia.
Qed.

Lemma reverse_by_key_sorted (key : ConnInfo -> Z) (l : list ConnInfo) :
  Sorted (fun a b => key b <= key a) (sort_Sort (Reverse (by_key key)) l).
Proof.
  apply sort_Sort_sorted; unfold Reverse, by_key; intros a b H.
  - apply Z.ltb_lt in H. lia.
  - apply Z.ltb_ge in H. lia.
Qed.

(** C6.  The rows [generateParagraph] renders after its header are the
    snapshot's connections, all of them, reordered by [engine.SortOpt]:
    ids ascending for [cid]; the field descending for [subs], [pending],
    [msgs_to], [msgs_from], [bytes_to] and [bytes_from]; and left in
    their order for any other value. *)
Theorem rows_ordered_by_sort_key (eng : Engine) (stats : Stats) :
  exists rows,
    fst (generateParagraph eng stats)
      = (header_text eng stats ++ map (connLine (DisplaySubs eng)) rows)%list
    /\ Permutation rows (ConnList (Connz_of stats))
    /\ match spec_row_order (SortOpt eng) with
       | Some R => Sorted R rows
       | None => rows = ConnList (Connz_of stats)
       end.
Proof.
  exists (sort_conns (SortOpt eng) (ConnList (Connz_of stats))).
  split; [reflexivity|].
  unfold sort_conns, spec_row_order; break_ifs;
    (split; [apply sort_Sort_perm || reflexivity|]);
    first [ apply by_key_sorted | apply reverse_by_key_sorted | reflexivity ].
Qed.

(** C7 (counterexample).  [generateParagraph] is not free of effects on
    its argument: sorting by [cid] reorders the snapshot's own connection
    slice, [[2; 1]] becoming [[1; 2]]. *)
Lemma generateParagraph_reorders_snapshot :
  ConnList (Connz_of (snd (generateParagraph sample_engine sample_stats)))
    = [sample_conn 1; sample_conn 2]
  /\ ConnList (Connz_of sample_stats) = [sample_conn 2; sample_conn 1]
  /\ snd (generateParagraph sample_engine sample_stats) <> sample_stats.
Proof.
  split; [reflexivity|]. split; [reflexivity|].
  vm_compute. intros H. inversion H.
Qed.

(** C7 (amended).  The only part of the snapshot [generateParagraph]
    writes is its connection slice, which it sorts in place: afterwards
    it holds a permutation of the same records, in the order of
    [engine.SortOpt] (unchanged for a value that is not a sort token);
    server vitals, rates and the connection count are untouched. *)
Theorem generateParagraph_sorts_snapshot_in_place (eng : Engine) (stats : Stats) :
  let stats' := snd (generateParagraph eng stats) in
  Varz_of stats' = Varz_of stats /\ Rates_of stats' = Rates_of stats
  /\ NumConns (Connz_of stats') = NumConns (Connz_of stats)
  /\ ConnList (Connz_of stats') = sort_conns (SortOpt eng) (ConnList (Connz_of stats))
  /\ Permutation (ConnList (Connz_of stats')) (ConnList (Connz_of stats)).
Proof.
  cbn. repeat split.
  unfold sort_conns; break_ifs; apply sort_Sort_perm || reflexivity.
Qed.

(** ** C3: committing a limit *)

Lemma reachable_main_evts (es : list Event) : forall s,
  reachable s -> reachable (main_evts es s).
Proof.
  induction es as [|e es IH]; intros s Hr; cbn; [exact Hr|].
  apply IH. destruct (exited s) eqn:Ex.
  - unfold main_evt. rewrite Ex. exact Hr.
  - eapply reach_step; [exact Hr|]. apply step_event, Ex.
Qed.

(** C3 (counterexample).  From the start, the keys [n - 5] and Enter
    store the negative sample limit -5: [Sscanf]'s [%d] accepts a sign. *)
Lemma negative_limit_accepted :
  let s1 := main_evts [key_ch 110; key_ch 45; key_ch 53] (init_state 1024 1 SortByCid) in
  reachable s1 /\ waitingLimitOption s1 = true /\ optionBuf s1 = "-5"
  /\ Conns (engine (main_evt enterEvt s1)) = -5.
Proof.
  cbv zeta. split; [apply reachable_main_evts, reach_init; reflexivity|].
  vm_compute. repeat split.
Qed.

(** C3 (amended).  Enter in AwaitingLimit mode parses the buffer as Go's
    [fmt.Sscanf(optionBuf, "%d", &n)] does ([Sscanf_d]: optional leading
    white space, optional sign, decimal digits, trailing bytes ignored,
    int64 range); on success [engine.Conns] becomes [n], negative values
    included, on failure it is unchanged; the sort key and the
    subscription toggle are unchanged and the loop returns to Normal mode
    with an empty buffer. *)
Theorem limit_commit_applies_Sscanf (s : State)
  (Hx : exited s = false) (Hws : waitingSortOption s = false)
  (Hwl : waitingLimitOption s = true) :
  let s' := main_evt enterEvt s in
  Conns (engine s') = match Sscanf_d (optionBuf s) with
                      | Some n => n
                      | None => Conns (engine s)
                      end
  /\ SortOpt (engine s') = SortOpt (engine s)
  /\ DisplaySubs (engine s') = DisplaySubs (engine s)
  /\ waitingLimitOption s' = false /\ waitingSortOption s' = false
  /\ optionBuf s' = "".
Proof.
  destruct s as [eng ws wl ds buf vm rows par gos upd rs ex tt]; cbn in *; subst.
  unfold_loop; cbn. destruct (Sscanf_d buf); cbn; repeat split.
Qed.

(** ** C4: the subscription toggle in the help view *)

(** C4 (failing input).  From the start, 'h' opens the help view; there
    's' flips [engine.DisplaySubs] while dismissing the help: the toggle's
    guard checks the capture flags only, not the view, and runs before the
    help view's [continue]. *)
Lemma subs_toggled_from_help_view :
  let s1 := main_evt (key_ch 104) (init_state 1024 1 SortByCid) in
  let s2 := main_evt (key_ch 115) s1 in
  reachable s1 /\ viewMode s1 = HelpViewMode
  /\ waitingSortOption s1 = false /\ waitingLimitOption s1 = false
  /\ DisplaySubs (engine s1) = false
  /\ DisplaySubs (engine s2) = true /\ viewMode s2 = TopViewMode.
Proof.
  cbv zeta. split.
  - apply (reachable_main_evts [key_ch 104]), reach_init; reflexivity.
  - vm_compute. repeat split.
Qed.

(** ** C5: editing the buffer *)

(** C5 (failing input).  In AwaitingSortKey mode with an empty buffer, a
    backspace appends [string(e.Ch)], a NUL byte, instead of doing
    nothing; and after typing 'é' (two bytes) a backspace removes one
    byte of it, not the character. *)
Lemma backspace_edits_bytes :
  let s1 := main_evt (key_ch 111) (init_state 1024 1 SortByCid) in
  reachable s1 /\ waitingSortOption s1 = true /\ optionBuf s1 = ""
  /\ optionBuf (main_evt backspace2Evt s1) = byte_str 0
  /\ optionBuf (main_evt (key_ch 233) s1) = utf8_of_rune 233
  /\ String.length (utf8_of_rune 233) = 2%nat
  /\ optionBuf (main_evts [key_ch 233; backspace2Evt] s1) = byte_str 0xC3.
Proof.
  cbv zeta. split.
  - apply (reachable_main_evts [key_ch 111]), reach_init; reflexivity.
  - vm_compute. repeat split.
Qed.

(** ** C10: which threads write the loop's state *)

(** C10 (counterexample).  After 'o', 'x' and Enter, the goroutine
    spawned for the invalid token prints to the terminal and then clears
    [waitingSortOption] while the event loop is still running. *)
Lemma sort_error_goroutine_writes_loop_state : ~ event_loop_only_writer.
Proof.
  intros H.
  set (s0 := main_evts [key_ch 111; key_ch 120; enterEvt] (init_state 1024 1 SortByCid)).
  assert (Hr0 : reachable s0)
    by (apply reachable_main_evts, reach_init; reflexivity).
  assert (Hg0 : goroutines s0 = ([] ++ (GPrintInvalid :: tl sort_err_go) :: [])%list)
    by reflexivity.
  set (s1 := exec_act GPrintInvalid (set_gos ([] ++ tl sort_err_go :: [])%list s0)).
  assert (Hs1 : tstep s0 TSortErr s1) by (apply step_sort_err; [reflexivity | exact Hg0]).
  assert (Hr1 : reachable s1) by (eapply reach_step; eauto).
  assert (Hg1 : goroutines s1 = ([] ++ (GClearWaitingSort :: tl (tl sort_err_go)) :: [])%list)
    by reflexivity.
  set (s2 := exec_act GClearWaitingSort (set_gos ([] ++ tl (tl sort_err_go) :: [])%list s1)).
  assert (Hs2 : tstep s1 TSortErr s2) by (apply step_sort_err; [reflexivity | exact Hg1]).
  destruct (H s1 TSortErr s2 Hr1 Hs2 ltac:(discriminate)) as [_ [Hws _]].
  vm_compute in Hws. discriminate.
Qed.

(** C10 (amended).  A step of a thread other than the event loop never
    writes the engine (sort key, limit, subscription toggle),
    [waitingLimitOption], [displaySubscriptions] or the view.  The
    [update] goroutine writes only the paragraph text (and its pending
    redraw), not the capture state or the terminal; the goroutine of an
    invalid sort token leaves the paragraph text alone but may clear
    [waitingSortOption] and [optionBuf] and writes to the terminal, both
    while the event loop runs. *)
Theorem non_loop_threads_frame (s s' : State) (t : Thread)
  (Hs : tstep s t s') (Ht : t <> TMain) :
  engine s' = engine s /\ waitingLimitOption s' = waitingLimitOption s
  /\ displaySubscriptions s' = displaySubscriptions s /\ viewMode s' = viewMode s
  /\ exited s' = exited s
  /\ ((t = TUpdate /\ waitingSortOption s' = waitingSortOption s
       /\ optionBuf s' = optionBuf s /\ tty s' = tty s)
      \/ (t = TSortErr /\ parText s' = parText s
          /\ (waitingSortOption s' = waitingSortOption s \/ waitingSortOption s' = false)
          /\ (optionBuf s' = optionBuf s \/ optionBuf s' = "")
          /\ exists ops, tty s' = (tty s ++ ops)%list
                         /\ Forall (fun p => fst p = TSortErr) ops)).
Proof.
  destruct Hs as [e s Hx|s Hx Hu|s n Hx Hn|stats s Hx Hu|gs1 a rest gs2 s Hx Hg];
    try (exfalso; apply Ht; reflexivity).
  - destruct s; cbn. repeat split. left. repeat split.
  - destruct a, s; cbn; repeat split; right; repeat split; auto;
      first [ exists []; rewrite app_nil_r; split; [reflexivity | constructor]
            | eexists [_]; split; [reflexivity | repeat constructor] ].
Qed.

(** ** Witnesses: the theorems above at concrete states *)

(** C1 at the start state, then after 'o' and 'n'. *)
Lemma awaiting_modes_exclusive_witness :
  reachable (init_state 1024 1 SortByCid)
  /\ ~ (waitingSortOption (main_evts [key_ch 111; key_ch 110] (init_state 1024 1 SortByCid)) = true
        /\ waitingLimitOption (main_evts [key_ch 111; key_ch 110] (init_state 1024 1 SortByCid)) = true).
Proof.
  split; [apply reach_init; reflexivity|].
  apply (awaiting_modes_exclusive _ (reach_init 1024 1 SortByCid eq_refl)).
Defined.

(** C2 after 'o' and 'x': the buffer "x" is not a sort token. *)
Lemma invalid_sort_token_rejected_witness :
  let s := main_evts [key_ch 111; key_ch 120] (init_state 1024 1 SortByCid) in
  exited s = false /\ waitingSortOption s = true /\ waitingLimitOption s = false
  /\ is_sort_opt (optionBuf s) = false
  /\ (let s1 := main_evt enterEvt s in
      engine s1 = engine s /\ goroutines s1 = (goroutines s ++ [sort_err_go])%list /\
      exists s2, steps_of TSortErr s1 s2 /\
        engine s2 = engine s /\ waitingSortOption s2 = false /\
        waitingLimitOption s2 = false /\ optionBuf s2 = "" /\
        tty s2 = (tty s ++ [(TSortErr, OWrite (invalid_msg (optionBuf s)));
                            (TSortErr, OSleep 1);
                            (TSortErr, OWrite (clrline (optionBuf s)))])%list).
Proof.
  intros s.
  split; [reflexivity|]. split; [reflexivity|]. split; [reflexivity|].
  split; [reflexivity|].
  apply invalid_sort_token_rejected; reflexivity.
Defined.

(** C3 (amended) after 'n' and '5'. *)
Lemma limit_commit_applies_Sscanf_witness :
  let s := main_evts [key_ch 110; key_ch 53] (init_state 1024 1 SortByCid) in
  exited s = false /\ waitingSortOption s = false /\ waitingLimitOption s = true
  /\ (let s' := main_evt enterEvt s in
      Conns (engine s') = match Sscanf_d (optionBuf s) with
                          | Some n => n
                          | None => Conns (engine s)
                          end
      /\ SortOpt (engine s') = SortOpt (engine s)
      /\ DisplaySubs (engine s') = DisplaySubs (engine s)
      /\ waitingLimitOption s' = false /\ waitingSortOption s' = false
      /\ optionBuf s' = "").
Proof.
  intros s.
  split; [reflexivity|]. split; [reflexivity|]. split; [reflexivity|].
  apply limit_commit_applies_Sscanf; reflexivity.
Defined.

(** C8 with 'q' pressed in AwaitingSortKey mode. *)
Lemma quit_honoured_in_every_mode_witness :
  let s := main_evts [key_ch 111] (init_state 1024 1 SortByCid) in
  exited s = false /\ quit_event (key_ch 113)
  /\ (let s' := main_evt (key_ch 113) s in
      exited s' = true /\
      (exists pre,
         tty s' = (tty s ++ pre ++ [(TMain, OCloseShutdown); (TMain, OWrite clearScreen_seq);
                                    (TMain, OUiClose); (TMain, OWrite showCursor_seq);
                                    (TMain, OExit 0)])%list
         /\ Forall (fun p => exists w, p = (TMain, OWrite w)) pre) /\
      (forall t s'', ~ tstep s' t s'')).
Proof.
  intros s.
  assert (Hq : quit_event (key_ch 113)) by (split; [reflexivity | left; split; reflexivity]).
  split; [reflexivity|]. split; [exact Hq|].
  apply quit_honoured_in_every_mode; [reflexivity | exact Hq].
Defined.


(** C10 (amended) at the first step of an invalid-token goroutine. *)
Lemma non_loop_threads_frame_witness :
  let s := main_evts [key_ch 111; key_ch 120; enterEvt] (init_state 1024 1 SortByCid) in
  let s' := exec_act GPrintInvalid (set_gos ([] ++ tl sort_err_go :: [])%list s) in
  tstep s TSortErr s' /\ TSortErr <> TMain
  /\ (engine s' = engine s /\ waitingLimitOption s' = waitingLimitOption s
      /\ displaySubscriptions s' = displaySubscriptions s /\ viewMode s' = viewMode s
      /\ exited s' = exited s
      /\ ((TSortErr = TUpdate /\ waitingSortOption s' = waitingSortOption s
           /\ optionBuf s' = optionBuf s /\ tty s' = tty s)
          \/ (TSortErr = TSortErr /\ parText s' = parText s
              /\ (waitingSortOption s' = waitingSortOption s \/ waitingSortOption s' = false)
              /\ (optionBuf s' = optionBuf s \/ optionBuf s' = "")
              /\ exists ops, tty s' = (tty s ++ ops)%list
                             /\ Forall (fun p => fst p = TSortErr) ops))).
Proof.
  intros s s'.
  assert (Hs : tstep s TSortErr s') by (apply step_sort_err; reflexivity).
  assert (Ht : TSortErr <> TMain) by discriminate.
  split; [exact Hs|]. split; [exact Ht|].
  apply (non_loop_threads_frame s s' TSortErr Hs Ht).
Defined.

(* ================================================================== *)
(** * Further properties of [main], [generateParagraph] and [StartUI] *)

Ltac split_ifs :=
  repeat (match goal with
  | |- context [if ?c then _ else _] => let E := fresh "E" in destruct c eqn:E
  | |- context [match Sscanf_d ?b with _ => _ end] => destruct (Sscanf_d b)
  end; cbn).

(** ** What one event does to the engine *)

Lemma main_evt_SortOpt (e : Event) (s : State) :
  SortOpt (engine (main_evt e s)) =
  if negb (exited s) && waitingSortOption s && isKey e && (Key e =? KeyEnter)
     && is_sort_opt (optionBuf s)
  then optionBuf s else SortOpt (engine s).
Proof.
  destruct e as [et k c], s as [eng ws wl ds buf vm rows par gos upd rs ex tt].
  destruct ex, ws, wl, et; unfold_loop; cbn; split_ifs; reflexivity.
Qed.


Lemma main_evt_Delay (e : Event) (s : State) :
  Delay (engine (main_evt e s)) = Delay (engine s).
Proof.
  destruct e as [et k c], s as [eng ws wl ds buf vm rows par gos upd rs ex tt].
  destruct ex, ws, wl, et; unfold_loop; cbn; split_ifs; reflexivity.
Qed.

Lemma exec_act_engine (a : GoAct) (s : State) : engine (exec_act a s) = engine s.
Proof. destruct a, s; reflexivity. Qed.

Lemma tstep_engine (s : State) (t : Thread) (s' : State) :
  tstep s t s' -> engine s' = engine s \/ exists e, s' = main_evt e s.
Proof.
  destruct 1; [right; eauto | left; destruct s; reflexivity .. |].
  left. rewrite exec_act_engine. destruct s; reflexivity.
Qed.

(** ** The view invariant *)

Ltac vblock :=
  intros e [[cn dl so dsub] ws wl ds buf vm rows par gos upd rs ex tt];
  destruct e as [et k c];
  unfold view_inv; cbn; intros [H1 [H2 H3]]; subst dsub rows;
  destruct vm; [destruct ws, wl|destruct (H3 eq_refl); subst ws wl];
  unfold sort_block, limit_block, quit_block, subs_block, help_dismiss_block,
    sort_key_block, limit_key_block, help_key_block, resize_block, edit_buf, quit;
  cbn; split_ifs;
  repeat match goal with H : (_ && _)%bool = true |- _ => apply andb_prop in H; destruct H end;
  cbn in *; try discriminate; repeat split; auto; try discriminate;
  try (intros Hv; discriminate Hv).

Lemma sort_block_view_inv : forall e s, view_inv s -> view_inv (flow_state (sort_block e s)).
Proof. vblock. Qed.

Lemma limit_block_view_inv : forall e s, view_inv s -> view_inv (flow_state (limit_block e s)).
Proof. vblock. Qed.

Lemma quit_block_view_inv : forall e s, view_inv s -> view_inv (flow_state (quit_block e s)).
Proof. vblock. Qed.

Lemma subs_block_view_inv : forall e s, view_inv s -> view_inv (flow_state (subs_block e s)).
Proof. vblock. Qed.

Lemma help_dismiss_block_view_inv : forall e s,
  view_inv s -> view_inv (flow_state (help_dismiss_block e s)).
Proof. vblock. Qed.

Lemma sort_key_block_view_inv : forall e s,
  view_inv s -> view_inv (flow_state (sort_key_block e s)).
Proof. vblock. Qed.

Lemma limit_key_block_view_inv : forall e s,
  view_inv s -> view_inv (flow_state (limit_key_block e s)).
Proof. vblock. Qed.

Lemma help_key_block_view_inv : forall e s,
  view_inv s -> view_inv (flow_state (help_key_block e s)).
Proof. vblock. Qed.

Lemma resize_block_view_inv : forall e s,
  view_inv s -> view_inv (flow_state (resize_block e s)).
Proof. vblock. Qed.

Lemma main_evt_view_inv (e : Event) (s : State) : view_inv s -> view_inv (main_evt e s).
Proof.
  intros H. unfold main_evt. destruct (exited s); auto.
  unfold handle_evt.
  repeat (apply bind_pres; [|intros ? ?]).
  all: first [ apply sort_block_view_inv | apply limit_block_view_inv
             | apply quit_block_view_inv | apply subs_block_view_inv
             | apply help_dismiss_block_view_inv | apply sort_key_block_view_inv
             | apply limit_key_block_view_inv | apply help_key_block_view_inv
             | apply resize_block_view_inv ]; auto.
Qed.

Lemma reachable_view_inv (s : State) : reachable s -> view_inv s.
Proof.
  induction 1 as [c d o Ho | s t s' _ IH Hs].
  - unfold view_inv; cbn. repeat split; auto; discriminate.
  - destruct Hs; auto using main_evt_view_inv;
      try (destruct s; exact IH).
    destruct IH as [H1 [H2 H3]].
    destruct a, s; unfold view_inv; cbn in *;
      (split; [auto | split; [auto | intros Hv; destruct (H3 Hv); auto]]).
Qed.

Lemma reachable_sort_token (s : State) : reachable s -> is_sort_opt (SortOpt (engine s)) = true.
Proof.
  induction 1 as [c d o Ho | s t s' _ IH Hs]; [exact Ho|].
  destruct (tstep_engine s t s' Hs) as [-> | [e ->]]; [exact IH|].
  rewrite main_evt_SortOpt.
  destruct (negb (exited s) && waitingSortOption s && isKey e && (Key e =? KeyEnter)
            && is_sort_opt (optionBuf s)) eqn:E; [|exact IH].
  apply andb_prop in E as [_ E]. exact E.
Qed.

(** ** Strings *)

Lemma str_length_app (a b : string) :
  String.length (a ++ b) = (String.length a + String.length b)%nat.
Proof. induction a as [|c a IH]; cbn; congruence. Qed.



Lemma spaces_length (n : nat) : String.length (spaces n) = n.
Proof. induction n as [|n IH]; cbn; congruence. Qed.

Lemma is_sort_opt_length (o : string) :
  is_sort_opt o = true -> (3 <= String.length o <= 10)%nat.
Proof.
  unfold is_sort_opt. intros H.
  repeat (apply orb_prop in H as [H|H]); apply String.eqb_eq in H; subst; cbn; lia.
Qed.

(** ** [%d] read back by [Sscanf] *)

Lemma nat_of_digit_char (z : Z) : nat_of (digit_char z) = (48 + Z.to_nat (z mod 10))%nat.
Proof.
  unfold nat_of, digit_char. apply nat_ascii_embedding.
  assert (0 <= z mod 10 < 10) by (apply Z.mod_pos_bound; lia). lia.
Qed.

Lemma is_digit_digit_char (z : Z) : is_digit (digit_char z) = true.
Proof.
  unfold is_digit. rewrite nat_of_digit_char.
  assert (0 <= z mod 10 < 10) by (apply Z.mod_pos_bound; lia).
  apply andb_true_intro; split; apply Nat.leb_le; lia.
Qed.

Lemma scan_digit_char (z a : Z) (k : nat) (r : string) :
  scan_digits (String (digit_char z) r) a k = scan_digits r (a * 10 + z mod 10) (S k).
Proof.
  cbn [scan_digits]. rewrite is_digit_digit_char, nat_of_digit_char.
  assert (0 <= z mod 10 < 10) by (apply Z.mod_pos_bound; lia).
  f_equal. rewrite Nat.add_comm, Nat.add_sub, Z2Nat.id; lia.
Qed.

Lemma digits_of_pos_unfold (f : nat) (z : Z) (acc : string) :
  digits_of_pos (S f) z acc =
  if z <? 10 then String (digit_char z) acc
  else digits_of_pos f (z / 10) (String (digit_char z) acc).
Proof. reflexivity. Qed.

Lemma digits_of_pos_app (f : nat) : forall z acc t,
  digits_of_pos f z (acc ++ t) = (digits_of_pos f z acc ++ t)%string.
Proof.
  induction f as [|f IH]; intros z acc t; [reflexivity|].
  rewrite !digits_of_pos_unfold. destruct (z <? 10); [reflexivity|].
  apply (IH (z / 10) (String (digit_char z) acc) t).
Qed.

Lemma digits_of_pos_head (f : nat) : forall z acc,
  exists c r, digits_of_pos (S f) z acc = String c r /\ is_digit c = true.
Proof.
  induction f as [|f IH]; intros z acc; rewrite digits_of_pos_unfold.
  - destruct (z <? 10); cbn [digits_of_pos];
      (eexists _, _; split; [reflexivity | apply is_digit_digit_char]).
  - destruct (z <? 10); [eexists _, _; split; [reflexivity | apply is_digit_digit_char]|].
    apply IH.
Qed.

Lemma digits_of_pos_scan (f : nat) : forall z acc a k,
  0 < z -> z < 10 ^ Z.of_nat f ->
  exists m, (0 < m)%nat /\
    scan_digits (digits_of_pos f z acc) a k = scan_digits acc (a * 10 ^ Z.of_nat m + z) (k + m).
Proof.
  induction f as [|f IH]; intros z acc a k Hz Hf; [cbn in Hf; lia|].
  rewrite digits_of_pos_unfold.
  destruct (z <? 10) eqn:E.
  - apply Z.ltb_lt in E. exists 1%nat. split; [lia|].
    rewrite scan_digit_char, Z.mod_small by lia.
    rewrite Nat.add_1_r. f_equal; cbn; lia.
  - apply Z.ltb_ge in E.
    assert (Hq : 0 < z / 10) by (apply Z.div_str_pos; lia).
    assert (Hb : z / 10 < 10 ^ Z.of_nat f).
    { apply Z.div_lt_upper_bound; [lia|].
      rewrite Nat2Z.inj_succ, Z.pow_succ_r in Hf by lia. lia. }
    destruct (IH (z / 10) (String (digit_char z) acc) a k Hq Hb) as [m [Hm Hs]].
    exists (S m). split; [lia|]. rewrite Hs, scan_digit_char.
    rewrite Nat.add_succ_r. f_equal.
    rewrite Nat2Z.inj_succ, Z.pow_succ_r by lia.
    rewrite (Z.div_mod z 10) at 3 by lia. ring.
Qed.

Lemma pos_lt_pow2_size (p : positive) : Zpos p < 2 ^ Z.of_nat (Pos.size_nat p).
Proof.
  induction p as [p IH|p IH|].
  - cbn [Pos.size_nat]. rewrite Nat2Z.inj_succ, Z.pow_succ_r by lia.
    rewrite Pos2Z.inj_xI. lia.
  - cbn [Pos.size_nat]. rewrite Nat2Z.inj_succ, Z.pow_succ_r by lia.
    rewrite Pos2Z.inj_xO. lia.
  - reflexivity.
Qed.

Lemma pos_lt_pow10_size (p : positive) : Zpos p < 10 ^ Z.of_nat (Pos.size_nat p).
Proof.
  eapply Z.lt_le_trans; [apply pos_lt_pow2_size|].
  apply Z.pow_le_mono_l; lia.
Qed.

Lemma scan_digits_stop (t : string) (v : Z) (m : nat) :
  match t with String c _ => is_digit c = false | EmptyString => True end ->
  scan_digits t v m = (v, m).
Proof. destruct t as [|c r]; cbn; [reflexivity|]. intros ->. reflexivity. Qed.

Lemma space_prefix_low (a : ascii) (r : string) :
  (nat_of a < 0xC2)%nat -> nat_of a <> 32%nat -> (nat_of a < 9 \/ 13 < nat_of a)%nat ->
  space_prefix (String a r) = 0%nat.
Proof.
  intros H1 H2 H3. unfold space_prefix.
  set (x := nat_of a) in *.
  assert (E1 : ((9 <=? x)%nat && (x <=? 13)%nat && negb (x =? 10)%nat || (x =? 32)%nat) = false).
  { destruct H3 as [H3|H3].
    - replace (9 <=? x)%nat with false by (symmetry; apply Nat.leb_gt; lia).
      cbn. apply Nat.eqb_neq; lia.
    - replace (x <=? 13)%nat with false by (symmetry; apply Nat.leb_gt; lia).
      rewrite andb_false_r. cbn. apply Nat.eqb_neq; lia. }
  rewrite E1.
  replace (x =? 0xC2)%nat with false by (symmetry; apply Nat.eqb_neq; lia).
  replace (x =? 0xE1)%nat with false by (symmetry; apply Nat.eqb_neq; lia).
  replace (x =? 0xE2)%nat with false by (symmetry; apply Nat.eqb_neq; lia).
  replace (x =? 0xE3)%nat with false by (symmetry; apply Nat.eqb_neq; lia).
  destruct r as [|b [|c r2]]; reflexivity.
Qed.

Lemma skip_space_low (fuel : nat) (a : ascii) (r : string) :
  (nat_of a < 0xC2)%nat -> nat_of a <> 32%nat -> (nat_of a < 9 \/ 13 < nat_of a)%nat ->
  skip_space (S fuel) (String a r) = SkipOk (String a r).
Proof.
  intros H1 H2 H3. cbn [skip_space].
  replace (nat_of a =? 10)%nat with false by (symmetry; apply Nat.eqb_neq; lia).
  replace (nat_of a =? 13)%nat with false by (symmetry; apply Nat.eqb_neq; lia).
  rewrite space_prefix_low by assumption. reflexivity.
Qed.

Lemma is_digit_range (c : ascii) : is_digit c = true -> (48 <= nat_of c <= 57)%nat.
Proof.
  unfold is_digit. intros H. apply andb_prop in H as [H1 H2].
  apply Nat.leb_le in H1, H2. lia.
Qed.

Lemma Sscanf_d_fmt_d (n : Z) (t : string)
  (Hlo : - 2 ^ 63 <= n) (Hhi : n <= 2 ^ 63 - 1)
  (Ht : match t with String c _ => is_digit c = false | EmptyString => True end) :
  Sscanf_d (fmt_d n ++ t) = Some n.
Proof.
  unfold Sscanf_d.
  assert (Hsgn : forall (q : Z) (m : nat) (c : ascii) (r : string),
             (48 <= nat_of c <= 57)%nat ->
             (- 2 ^ 63 <= q <= 2 ^ 63 - 1) -> (0 < m)%nat ->
             scan_digits (String c r) 0 0 = (q, m) ->
             match skip_space (String.length (String c r)) (String c r) with
             | SkipErr => None
             | SkipOk EmptyString => None
             | SkipOk (String c0 r0 as t0) =>
               let '(sign, digits) :=
                 if (nat_of c0 =? 43)%nat then (1, r0)
                 else if (nat_of c0 =? 45)%nat then (-1, r0) else (1, t0) in
               let '(v, n0) := scan_digits digits 0 0 in
               if (n0 =? 0)%nat then None
               else let i := sign * v in
                    if (- 2 ^ 63 <=? i) && (i <=? 2 ^ 63 - 1) then Some i else None
             end = Some q).
  { intros q m c r Hc Hq Hm Hs.
    cbn [String.length]. rewrite skip_space_low by lia.
    replace (nat_of c =? 43)%nat with false by (symmetry; apply Nat.eqb_neq; lia).
    replace (nat_of c =? 45)%nat with false by (symmetry; apply Nat.eqb_neq; lia).
    rewrite Hs.
    replace (m =? 0)%nat with false by (symmetry; apply Nat.eqb_neq; lia).
    rewrite Z.mul_1_l.
    replace ((- 2 ^ 63 <=? q) && (q <=? 2 ^ 63 - 1)) with true
      by (symmetry; apply andb_true_intro; split; apply Z.leb_le; lia).
    reflexivity. }
  destruct n as [|p|p]; cbn [fmt_d].
  - apply (Hsgn 0 1%nat "0"%char t); [cbn; lia | lia | lia |].
    cbn [scan_digits]. rewrite scan_digits_stop by exact Ht. reflexivity.
  - rewrite <- digits_of_pos_app. cbn [append].
    pose proof (pos_lt_pow10_size p) as Hb.
    destruct (digits_of_pos_scan (Pos.size_nat p) (Zpos p) t 0 0) as [m [Hm Hs]];
      [lia | exact Hb |].
    rewrite (scan_digits_stop t) in Hs by exact Ht.
    destruct (Pos.size_nat p) as [|f] eqn:Ef; [cbn in Hb; lia|].
    destruct (digits_of_pos_head f (Zpos p) t) as [c [r [Hcr Hc]]].
    rewrite Hcr in *. apply is_digit_range in Hc.
    apply (Hsgn _ m c r Hc); [lia | exact Hm | exact Hs].
  - cbn [append]. rewrite <- digits_of_pos_app. cbn [append].
    pose proof (pos_lt_pow10_size p) as Hb.
    destruct (digits_of_pos_scan (Pos.size_nat p) (Zpos p) t 0 0) as [m [Hm Hs]];
      [lia | exact Hb |].
    rewrite (scan_digits_stop t) in Hs by exact Ht.
    cbn [append String.length]. rewrite skip_space_low by (cbn; lia).
    cbn [nat_of nat_of_ascii]. cbn -[scan_digits Z.pow digits_of_pos].
    replace (PosDef.Pos.to_nat 45) with 45%nat by reflexivity.
    cbn -[scan_digits Z.pow digits_of_pos].
    rewrite Z.mul_0_l, Z.add_0_l, Nat.add_0_l in Hs. rewrite Hs.
    replace (m =? 0)%nat with false by (symmetry; apply Nat.eqb_neq; lia).
    cbn -[Z.pow].
    replace ((- 2 ^ 63 <=? Zneg p) && (Zneg p <=? 2 ^ 63 - 1)) with true
      by (symmetry; apply andb_true_intro; split; apply Z.leb_le; lia).
    reflexivity.
Qed.

(** ** Typing in AwaitingLimit mode *)







(** ** [main] *)

(** X1.  [main] reaches [StartUI] only when the version flag is off, the
    host is non-empty, one of the two monitoring ports is non-zero, the
    sort flag is a sort token and [ui.Init] succeeds; the engine then holds
    the flags' limit, delay and sort key with subscriptions hidden, the URI
    uses https and the secure port exactly when [-ms] is non-zero, and the
    loop starts from a state of [StartUI]'s model. *)
Theorem main_starts_ui_only_when_flags_valid (os : OS) (f : Flags)
  (eng : Engine) (uri : string) (tls : option TLSConfig)
  (Hs : main_setup os f = MStart eng uri tls) :
  showVersion f = false /\ host f <> "" /\ (port f <> 0 \/ httpsPort f <> 0) /\
  is_sort_opt (sortBy f) = true /\ uiInitOk os = true /\
  eng = mkEngine (conns f) (delay f) (sortBy f) false /\
  uri = (if httpsPort f =? 0 then "http://" ++ host f ++ ":" ++ fmt_d (port f)
         else "https://" ++ host f ++ ":" ++ fmt_d (httpsPort f)) /\
  (tls = None <-> httpsPort f = 0) /\
  reachable (init_state (conns f) (delay f) (sortBy f)).
Proof.
  unfold main_setup in Hs.
  destruct (showVersion f); [discriminate Hs|].
  destruct (httpsPort f =? 0) eqn:Eh; cbn in Hs.
  - destruct (String.eqb (host f) "") eqn:Eo; [discriminate Hs|].
    destruct ((port f =? 0) && true) eqn:Ep; [discriminate Hs|].
    destruct (is_sort_opt (sortBy f)) eqn:Es; [|discriminate Hs].
    destruct (uiInitOk os) eqn:Eu; [|discriminate Hs].
    injection Hs as <- <- <-.
    apply Z.eqb_eq in Eh. apply String.eqb_neq in Eo.
    rewrite andb_true_r in Ep. apply Z.eqb_neq in Ep.
    repeat split; auto. constructor. exact Es.
  - destruct (tls_setup os f) as [t|m] eqn:Et; [|discriminate Hs].
    destruct (String.eqb (host f) "") eqn:Eo; [discriminate Hs|].
    destruct ((port f =? 0) && false) eqn:Ep; [rewrite andb_false_r in Ep; discriminate Ep|].
    destruct (is_sort_opt (sortBy f)) eqn:Es; [|discriminate Hs].
    destruct (uiInitOk os) eqn:Eu; [|discriminate Hs].
    injection Hs as <- <- <-.
    apply Z.eqb_neq in Eh. apply String.eqb_neq in Eo.
    assert (Ht : exists c, t = Some c).
    { unfold tls_setup in Et.
      destruct (String.eqb (caCertOpt f) "");
        [|destruct (ReadFile os (caCertOpt f))]; try discriminate Et;
      (destruct (negb (String.eqb (certOpt f) "") && negb (String.eqb (keyOpt f) ""));
        [destruct (LoadX509KeyPair os (certOpt f) (keyOpt f))|]);
      try discriminate Et; injection Et as <-; eauto. }
    destruct Ht as [c ->].
    repeat split; auto; try discriminate; try (intros; contradiction).
    constructor. exact Es.
Qed.

(** X2.  With the version flag off, a sort flag that is not a sort token
    makes [main] exit with status 1 before the terminal is initialised,
    whatever the other flags and the files. *)
Theorem main_invalid_sort_flag_exits (os : OS) (f : Flags)
  (Hv : showVersion f = false) (Hs : is_sort_opt (sortBy f) = false) :
  exists out, main_setup os f = MExit 1 out.
Proof.
  unfold main_setup. rewrite Hv.
  destruct (negb (httpsPort f =? 0)); [destruct (tls_setup os f)|]; cbn; eauto;
    destruct (String.eqb (host f) ""); eauto;
    destruct ((port f =? 0) && (httpsPort f =? 0)); eauto;
    rewrite Hs; eauto.
Qed.

(** X3.  Without [-ms], the TLS flags are ignored: no file is read and no
    key pair loaded (the outcome does not depend on the file system), and
    the UI starts with no TLS configuration. *)
Theorem main_tls_files_unread_without_secure_port (r1 r2 : string -> string + string)
  (l1 l2 : string -> string -> string + string) (ok : bool) (f : Flags)
  (Hh : httpsPort f = 0) :
  main_setup (mkOS r1 l1 ok) f = main_setup (mkOS r2 l2 ok) f /\
  forall eng uri tls, main_setup (mkOS r1 l1 ok) f = MStart eng uri tls -> tls = None.
Proof.
  unfold main_setup. rewrite Hh. cbn.
  split; [reflexivity|].
  intros eng uri tls.
  destruct (showVersion f), (String.eqb (host f) ""), (port f =? 0),
    (is_sort_opt (sortBy f)), ok; cbn; congruence.
Qed.

(** X4.  With [-ms], a client certificate given without its key (or a key
    without its certificate) is silently ignored: no key pair is loaded,
    no error is raised, and the TLS configuration carries no certificate
    (and [-k]'s skip-verify setting). *)
Theorem main_half_client_cert_ignored (r : string -> string + string)
  (l1 l2 : string -> string -> string + string) (ok : bool) (f : Flags)
  (Hh : httpsPort f <> 0) (Hc : certOpt f = "" \/ keyOpt f = "") :
  main_setup (mkOS r l1 ok) f = main_setup (mkOS r l2 ok) f /\
  forall eng uri tls, main_setup (mkOS r l1 ok) f = MStart eng uri tls ->
    exists c, tls = Some c /\ Certificates c = [] /\ InsecureSkipVerify c = skipVerifyOpt f.
Proof.
  assert (Hn : (negb (String.eqb (certOpt f) "") && negb (String.eqb (keyOpt f) "")) = false).
  { destruct Hc as [-> | ->]; [reflexivity | apply andb_false_r]. }
  unfold main_setup, tls_setup. cbn [ReadFile LoadX509KeyPair uiInitOk].
  rewrite Hn. apply Z.eqb_neq in Hh. rewrite Hh. cbn [negb].
  split; [reflexivity|].
  intros eng uri tls.
  destruct (showVersion f); [discriminate|].
  destruct (String.eqb (caCertOpt f) ""); [|destruct (r (caCertOpt f))];
    try discriminate;
    destruct (String.eqb (host f) ""), ((port f =? 0) && false),
      (is_sort_opt (sortBy f)), ok; try discriminate;
    intros H; injection H as _ _ <-; eexists; repeat split.
Qed.

(** X5.  With [-ms], an unreadable [-cacert] file ends [main] with status
    1 and its error, before the host, port and sort flags are checked. *)
Theorem main_ca_read_error_fatal (os : OS) (f : Flags) (err : string)
  (Hv : showVersion f = false) (Hh : httpsPort f <> 0)
  (Hca : caCertOpt f <> "") (Hr : ReadFile os (caCertOpt f) = inr err) :
  main_setup os f = MExit 1 ["Error: " ++ err].
Proof.
  unfold main_setup, tls_setup. rewrite Hv.
  apply Z.eqb_neq in Hh. apply String.eqb_neq in Hca. rewrite Hh, Hca, Hr.
  reflexivity.
Qed.

(** ** [generateParagraph] *)

(** X6.  Every [fmt.Sprintf] of [generateParagraph] gets exactly as many
    arguments as its format has verbs, with subscriptions shown or not:
    no [%!(EXTRA ...)] or [%!v(MISSING)] in the text. *)
Theorem generateParagraph_sprintf_arity (eng : Engine) (stats : Stats) :
  Forall (fun p => fmt_verbs (pfmt p) = List.length (pargs p))
    (fst (generateParagraph eng stats)).
Proof.
  unfold generateParagraph; cbn [fst]. apply Forall_app; split.
  - unfold header_text. destruct (DisplaySubs eng); repeat constructor.
  - apply Forall_forall. intros p Hp. apply in_map_iff in Hp as [c [<- _]].
    destruct (DisplaySubs eng); reflexivity.
Qed.

(** X7.  Showing subscriptions changes neither the server summary nor the
    number or order of the table's lines: the column header and each row
    get exactly one more string argument, and one more verb. *)
Theorem displaySubs_adds_one_trailing_column (eng : Engine) (stats : Stats) :
  let t1 := fst (generateParagraph (with_DisplaySubs true eng) stats) in
  let t0 := fst (generateParagraph (with_DisplaySubs false eng) stats) in
  firstn 2 t1 = firstn 2 t0 /\
  Forall2 (fun p1 p0 => exists x,
             pargs p1 = (pargs p0 ++ [AStr x])%list /\
             fmt_verbs (pfmt p1) = S (fmt_verbs (pfmt p0)))
    (skipn 2 t1) (skipn 2 t0).
Proof.
  cbn zeta. unfold generateParagraph, with_DisplaySubs. cbn [fst DisplaySubs SortOpt].
  split; [reflexivity|].
  cbn [header_text skipn app].
  constructor.
  - eexists. split; [reflexivity | reflexivity].
  - induction (sort_conns (SortOpt eng) (ConnList (Connz_of stats))) as [|c cs IH];
      cbn; constructor; auto.
    eexists. split; reflexivity.
Qed.

(** ** Who writes the configuration *)



(** X10.  The refresh interval set by [-d] is never changed: no step of
    any thread writes [engine.Delay]. *)
Theorem delay_never_written (s : State) (t : Thread) (s' : State) (Hs : tstep s t s') :
  Delay (engine s') = Delay (engine s).
Proof.
  destruct (tstep_engine s t s' Hs) as [-> | [e ->]]; [reflexivity|].
  apply main_evt_Delay.
Qed.

(** X11.  In every reachable state the engine's sort key is one of the
    seven sort tokens. *)
Theorem reachable_sort_opt_valid (s : State) (Hr : reachable s) :
  is_sort_opt (SortOpt (engine s)) = true.
Proof. exact (reachable_sort_token s Hr). Qed.

(** X12.  In every reachable state [engine.DisplaySubs] equals the loop's
    [displaySubscriptions], the grid in [ui.Body] is the one of [viewMode],
    and the Help view is never in a capture mode. *)
Theorem reachable_view_state_consistent (s : State) (Hr : reachable s) :
  DisplaySubs (engine s) = displaySubscriptions s /\ bodyRows s = viewMode s
  /\ (viewMode s = HelpViewMode ->
      waitingSortOption s = false /\ waitingLimitOption s = false).
Proof. exact (reachable_view_inv s Hr). Qed.

(** ** Views, capture modes and resizing *)

(** X13.  In Normal mode on the dashboard, 'h' or '?' masks the prompt
    line, clears the buffer and shows the Help grid; the configuration is
    unchanged. *)
Theorem help_key_opens_help (s : State) (e : Event)
  (Hx : exited s = false) (Hv : viewMode s = TopViewMode)
  (Hws : waitingSortOption s = false) (Hwl : waitingLimitOption s = false)
  (Hk : isKey e = true) (Hkey : Key e = 0) (Hh : Ch e = 104 \/ Ch e = 63) :
  let s' := main_evt e s in
  viewMode s' = HelpViewMode /\ bodyRows s' = HelpViewMode /\
  waitingSortOption s' = false /\ waitingLimitOption s' = false /\
  optionBuf s' = "" /\ engine s' = engine s /\
  tty s' = (tty s ++ [(TMain, OWrite (clrline (optionBuf s)))])%list.
Proof.
  destruct e as [et k c]; cbn in *; subst k.
  destruct et; try discriminate Hk.
  destruct s as [eng ws wl ds buf vm rows par gos upd rs ex tt]; cbn in *; subst.
  unfold_loop; cbn.
  destruct Hh as [-> | ->]; cbn; repeat split; reflexivity.
Qed.

(** X14.  In the Help view, any key other than 'q' and Ctrl-C returns to
    the dashboard without output and without touching the buffer; the
    configuration is unchanged except that 's' flips the subscriptions
    toggle. *)
Theorem help_view_any_key_dismisses (s : State) (e : Event)
  (Hx : exited s = false) (Hv : viewMode s = HelpViewMode)
  (Hws : waitingSortOption s = false) (Hwl : waitingLimitOption s = false)
  (Hk : isKey e = true) (Hq : Ch e <> 113) (Hc : Key e <> KeyCtrlC) :
  let s' := main_evt e s in
  viewMode s' = TopViewMode /\ bodyRows s' = TopViewMode /\
  waitingSortOption s' = false /\ waitingLimitOption s' = false /\
  optionBuf s' = optionBuf s /\ tty s' = tty s /\
  displaySubscriptions s' =
    (if Ch e =? 115 then negb (displaySubscriptions s) else displaySubscriptions s) /\
  engine s' =
    (if Ch e =? 115 then with_DisplaySubs (negb (displaySubscriptions s)) (engine s)
     else engine s).
Proof.
  destruct e as [et k c]; cbn in *.
  destruct et; try discriminate Hk.
  destruct s as [eng ws wl ds buf vm rows par gos upd rs ex tt]; cbn in *; subst.
  apply Z.eqb_neq in Hq, Hc.
  unfold_loop; cbn. rewrite Hq, Hc. cbn.
  destruct (c =? 115), ds; cbn; repeat split; reflexivity.
Qed.

(** X15.  In either capture mode (on the dashboard), every character key
    but 'q' is text: it is appended to the buffer as [string(e.Ch)] and the
    prompt is reprinted with it; the mode, the view, the toggle and the
    configuration are unchanged ('o', 'n', 's', 'h' and '?' included). *)
Theorem capture_mode_keys_are_text (s : State) (c : Z)
  (Hx : exited s = false) (Hv : viewMode s = TopViewMode)
  (Hm : (waitingSortOption s = true /\ waitingLimitOption s = false)
        \/ (waitingSortOption s = false /\ waitingLimitOption s = true))
  (Hq : c <> 113) :
  let s' := main_evt (key_ch c) s in
  engine s' = engine s /\ waitingSortOption s' = waitingSortOption s /\
  waitingLimitOption s' = waitingLimitOption s /\ viewMode s' = viewMode s /\
  displaySubscriptions s' = displaySubscriptions s /\
  optionBuf s' = (optionBuf s ++ utf8_of_rune c)%string /\
  exists rest, tty s' =
    (tty s ++ (TMain, OWrite (if waitingSortOption s then sort_prompt s' else limit_prompt s'))
            :: rest)%list.
Proof.
  destruct s as [eng ws wl ds buf vm rows par gos upd rs ex tt]; cbn in *; subst.
  apply Z.eqb_neq in Hq.
  destruct Hm as [[-> ->] | [-> ->]]; unfold_loop; cbn; rewrite Hq; cbn;
    destruct (c =? 111), (c =? 110), (c =? 115), (c =? 63), (c =? 104);
    destruct (String.length buf); cbn; repeat split; rewrite <- ?app_assoc;
    eexists; reflexivity.
Qed.

(** X16.  In Normal mode a resize event only realigns the grid and
    spawns one goroutine that will send on [redraw]. *)
Theorem resize_in_normal_mode (s : State) (e : Event)
  (Hx : exited s = false) (Hws : waitingSortOption s = false)
  (Hwl : waitingLimitOption s = false) (Hr : EType e = EventResize) :
  main_evt e s = set_resize (S (resizeSenders s)) (emit TMain OAlign s).
Proof.
  destruct e as [et k c]; cbn in Hr; subst et.
  destruct s as [eng ws wl ds buf vm rows par gos upd rs ex tt]; cbn in *; subst.
  unfold_loop; cbn. destruct vm; reflexivity.
Qed.

(** X17.  In a capture mode a resize event is also taken as typed text:
    [string(e.Ch)] is appended to the buffer (the capture blocks do not
    check the event type), besides the realignment and redraw. *)
Theorem resize_in_capture_mode_types_rune (s : State) (e : Event)
  (Hx : exited s = false)
  (Hm : (waitingSortOption s = true /\ waitingLimitOption s = false)
        \/ (waitingSortOption s = false /\ waitingLimitOption s = true))
  (Hr : EType e = EventResize) :
  let s' := main_evt e s in
  optionBuf s' = (optionBuf s ++ utf8_of_rune (Ch e))%string /\
  resizeSenders s' = S (resizeSenders s) /\
  waitingSortOption s' = waitingSortOption s /\
  waitingLimitOption s' = waitingLimitOption s /\ engine s' = engine s.
Proof.
  destruct e as [et k c]; cbn in Hr; subst et.
  destruct s as [eng ws wl ds buf vm rows par gos upd rs ex tt]; cbn in *; subst.
  destruct Hm as [[-> ->] | [-> ->]]; unfold_loop; cbn; destruct vm;
    repeat split; reflexivity.
Qed.

(** ** Prompts and the limit *)

(** X18.  [Sscanf(%d)] reads back what [%d] prints: for every int64 [n],
    the text of [n] followed by nothing or by a non-digit parses to [n]. *)
Theorem Sscanf_d_reads_fmt_d (n : Z) (t : string)
  (Hlo : - 2 ^ 63 <= n) (Hhi : n <= 2 ^ 63 - 1)
  (Ht : match t with String c _ => is_digit c = false | EmptyString => True end) :
  Sscanf_d (fmt_d n ++ t) = Some n.
Proof. exact (Sscanf_d_fmt_d n t Hlo Hhi Ht). Qed.



(** X21.  A valid sort commit masks the prompt line with as many columns
    as the last prompt printed ("sort by [old]: token") occupied: the old
    key is at most 10 bytes and the token at least 3. *)
Theorem sort_commit_mask_covers_prompt (s : State) (Hr : reachable s)
  (Hx : exited s = false) (Hws : waitingSortOption s = true)
  (Hok : is_sort_opt (optionBuf s) = true) :
  tty (main_evt enterEvt s) = (tty s ++ [(TMain, OWrite (clrline (optionBuf s)))])%list /\
  (String.length (sort_prompt s) <= String.length (clrline (optionBuf s)))%nat.
Proof.
  pose proof (is_sort_opt_length _ (reachable_sort_token s Hr)) as Ho.
  pose proof (is_sort_opt_length _ Hok) as Hb.
  split.
  - destruct s as [eng ws wl ds buf vm rows par gos upd rs ex tt]; cbn in *; subst.
    unfold main_evt, handle_evt, sort_block; cbn. rewrite Hok. reflexivity.
  - unfold sort_prompt, clrline. rewrite !str_length_app, !spaces_length. cbn. lia.
Qed.

(** X22.  A limit commit clears the buffer before masking, so its mask is
    always 20 columns wide: it covers the last prompt ("limit   [N]: B")
    exactly when N and B together take at most 8 bytes. *)
Theorem limit_commit_mask_fixed_width (s : State)
  (Hx : exited s = false) (Hws : waitingSortOption s = false)
  (Hwl : waitingLimitOption s = true) :
  tty (main_evt enterEvt s) = (tty s ++ [(TMain, OWrite (clrline ""))])%list /\
  ((String.length (limit_prompt s) <= String.length (clrline ""))%nat <->
   (String.length (fmt_d (Conns (engine s))) + String.length (optionBuf s) <= 8)%nat).
Proof.
  split.
  - destruct s as [eng ws wl ds buf vm rows par gos upd rs ex tt]; cbn in *; subst.
    unfold main_evt, handle_evt, sort_block, limit_block; cbn.
    destruct (Sscanf_d buf); reflexivity.
  - unfold limit_prompt, clrline. rewrite !str_length_app, !spaces_length. cbn. lia.
Qed.


(** ** Witnesses of the further properties *)

(** X1 on [-s localhost -ms 8443 -cacert ca.pem -cert c.pem -key k.pem]. *)
Lemma main_starts_ui_only_when_flags_valid_witness :
  main_setup sample_os (sample_tls_flags "c.pem" "k.pem" "ca.pem") =
    MStart (mkEngine 1024 1 SortByCid false) "https://localhost:8443"
           (Some (mkTLS (Some "pem") ["cert"] false))
  /\ is_sort_opt SortByCid = true /\ reachable (init_state 1024 1 SortByCid).
Proof.
  destruct (main_starts_ui_only_when_flags_valid sample_os (sample_tls_flags "c.pem" "k.pem" "ca.pem")
              (mkEngine 1024 1 SortByCid false) "https://localhost:8443"
              (Some (mkTLS (Some "pem") ["cert"] false)) eq_refl)
    as (_ & _ & _ & Hs & _ & _ & _ & _ & Hr).
  split; [reflexivity|]. split; [exact Hs | exact Hr].
Defined.

(** X2 with [-sort size]. *)
Lemma main_invalid_sort_flag_exits_witness :
  showVersion (sample_flags "size") = false /\ is_sort_opt (sortBy (sample_flags "size")) = false
  /\ exists out, main_setup sample_os (sample_flags "size") = MExit 1 out.
Proof.
  split; [reflexivity|]. split; [reflexivity|].
  apply main_invalid_sort_flag_exits; reflexivity.
Defined.

(** X3 with [-m 8222]: a readable and an unreadable file system agree. *)
Lemma main_tls_files_unread_without_secure_port_witness :
  httpsPort (sample_flags SortByCid) = 0 /\
  main_setup sample_os (sample_flags SortByCid) = main_setup missing_file_os (sample_flags SortByCid)
  /\ (forall eng uri tls,
        main_setup sample_os (sample_flags SortByCid) = MStart eng uri tls -> tls = None).
Proof.
  split; [reflexivity|].
  exact (main_tls_files_unread_without_secure_port (ReadFile sample_os) (ReadFile missing_file_os)
           (LoadX509KeyPair sample_os) (LoadX509KeyPair missing_file_os) true
           (sample_flags SortByCid) eq_refl).
Defined.

(** X4 with [-ms 8443 -cert c.pem] and no [-key]. *)
Lemma main_half_client_cert_ignored_witness :
  httpsPort (sample_tls_flags "c.pem" "" "") <> 0 /\
  main_setup sample_os (sample_tls_flags "c.pem" "" "")
    = main_setup (mkOS (ReadFile sample_os) (LoadX509KeyPair missing_file_os) true)
                 (sample_tls_flags "c.pem" "" "")
  /\ (forall eng uri tls, main_setup sample_os (sample_tls_flags "c.pem" "" "") = MStart eng uri tls ->
        exists c, tls = Some c /\ Certificates c = [] /\ InsecureSkipVerify c = false).
Proof.
  assert (Hh : httpsPort (sample_tls_flags "c.pem" "" "") <> 0) by discriminate.
  split; [exact Hh|].
  exact (main_half_client_cert_ignored (ReadFile sample_os) (LoadX509KeyPair sample_os)
           (LoadX509KeyPair missing_file_os) true (sample_tls_flags "c.pem" "" "")
           Hh (or_intror eq_refl)).
Defined.

(** X5 with [-ms 8443 -cacert ca.pem] and no such file. *)
Lemma main_ca_read_error_fatal_witness :
  showVersion (sample_tls_flags "" "" "ca.pem") = false /\
  httpsPort (sample_tls_flags "" "" "ca.pem") <> 0 /\
  caCertOpt (sample_tls_flags "" "" "ca.pem") <> "" /\
  ReadFile missing_file_os "ca.pem" = inr "open ca.pem: no such file or directory" /\
  main_setup missing_file_os (sample_tls_flags "" "" "ca.pem")
    = MExit 1 ["Error: open ca.pem: no such file or directory"].
Proof.
  split; [reflexivity|]. split; [discriminate|]. split; [discriminate|].
  split; [reflexivity|].
  apply main_ca_read_error_fatal; [reflexivity | discriminate | discriminate | reflexivity].
Defined.



(** X10 on an update step with [sample_stats]. *)
Lemma delay_never_written_witness :
  let s := init_state 1024 1 SortByCid in
  tstep s TUpdate (update_step sample_stats s) /\
  Delay (engine (update_step sample_stats s)) = Delay (engine s).
Proof.
  intros s.
  assert (Hs : tstep s TUpdate (update_step sample_stats s)) by (apply step_update; reflexivity).
  split; [exact Hs|].
  exact (delay_never_written s TUpdate _ Hs).
Defined.

(** X11 after 'o', 'x', Enter: the invalid token is not stored. *)
Lemma reachable_sort_opt_valid_witness :
  let s := main_evts [key_ch 111; key_ch 120; enterEvt] (init_state 1024 1 SortByCid) in
  reachable s /\ is_sort_opt (SortOpt (engine s)) = true.
Proof.
  intros s.
  assert (Hr : reachable s) by (apply reachable_main_evts, reach_init; reflexivity).
  split; [exact Hr | exact (reachable_sort_opt_valid s Hr)].
Defined.

(** X12 after 'h' and 's'. *)
Lemma reachable_view_state_consistent_witness :
  let s := main_evts [key_ch 104; key_ch 115] (init_state 1024 1 SortByCid) in
  reachable s /\
  (DisplaySubs (engine s) = displaySubscriptions s /\ bodyRows s = viewMode s
   /\ (viewMode s = HelpViewMode ->
       waitingSortOption s = false /\ waitingLimitOption s = false)).
Proof.
  intros s.
  assert (Hr : reachable s) by (apply reachable_main_evts, reach_init; reflexivity).
  split; [exact Hr | exact (reachable_view_state_consistent s Hr)].
Defined.

(** X13 with 'h' from the start state. *)
Lemma help_key_opens_help_witness :
  let s := init_state 1024 1 SortByCid in
  exited s = false /\ viewMode s = TopViewMode /\ waitingSortOption s = false /\
  waitingLimitOption s = false /\ isKey (key_ch 104) = true /\ Key (key_ch 104) = 0 /\
  (let s' := main_evt (key_ch 104) s in
   viewMode s' = HelpViewMode /\ bodyRows s' = HelpViewMode /\
   waitingSortOption s' = false /\ waitingLimitOption s' = false /\
   optionBuf s' = "" /\ engine s' = engine s /\
   tty s' = (tty s ++ [(TMain, OWrite (clrline (optionBuf s)))])%list).
Proof.
  intros s.
  do 6 (split; [reflexivity|]).
  apply help_key_opens_help; try reflexivity. left; reflexivity.
Defined.

(** X14 with 's' in the Help view. *)
Lemma help_view_any_key_dismisses_witness :
  let s := main_evts [key_ch 104] (init_state 1024 1 SortByCid) in
  exited s = false /\ viewMode s = HelpViewMode /\ waitingSortOption s = false /\
  waitingLimitOption s = false /\ isKey (key_ch 115) = true /\
  (let s' := main_evt (key_ch 115) s in
   viewMode s' = TopViewMode /\ bodyRows s' = TopViewMode /\
   waitingSortOption s' = false /\ waitingLimitOption s' = false /\
   optionBuf s' = optionBuf s /\ tty s' = tty s /\
   displaySubscriptions s' =
     (if Ch (key_ch 115) =? 115 then negb (displaySubscriptions s) else displaySubscriptions s) /\
   engine s' =
     (if Ch (key_ch 115) =? 115
      then with_DisplaySubs (negb (displaySubscriptions s)) (engine s) else engine s)).
Proof.
  intros s.
  do 5 (split; [reflexivity|]).
  apply help_view_any_key_dismisses; try reflexivity; discriminate.
Defined.

(** X15 with 'h' typed in AwaitingSortKey mode. *)
Lemma capture_mode_keys_are_text_witness :
  let s := main_evts [key_ch 111] (init_state 1024 1 SortByCid) in
  exited s = false /\ viewMode s = TopViewMode /\
  waitingSortOption s = true /\ waitingLimitOption s = false /\
  (let s' := main_evt (key_ch 104) s in
   engine s' = engine s /\ waitingSortOption s' = waitingSortOption s /\
   waitingLimitOption s' = waitingLimitOption s /\ viewMode s' = viewMode s /\
   displaySubscriptions s' = displaySubscriptions s /\
   optionBuf s' = (optionBuf s ++ utf8_of_rune 104)%string /\
   exists rest, tty s' =
     (tty s ++ (TMain, OWrite (if waitingSortOption s then sort_prompt s' else limit_prompt s'))
             :: rest)%list).
Proof.
  intros s.
  do 4 (split; [reflexivity|]).
  apply capture_mode_keys_are_text; [reflexivity | reflexivity | left; split; reflexivity | discriminate].
Defined.

(** X16 from the start state. *)
Lemma resize_in_normal_mode_witness :
  let s := init_state 1024 1 SortByCid in
  exited s = false /\ waitingSortOption s = false /\ waitingLimitOption s = false /\
  EType resizeEvt = EventResize /\
  main_evt resizeEvt s = set_resize (S (resizeSenders s)) (emit TMain OAlign s).
Proof.
  intros s.
  do 4 (split; [reflexivity|]).
  apply resize_in_normal_mode; reflexivity.
Defined.

(** X17 in AwaitingLimit mode: the buffer gets a NUL byte. *)
Lemma resize_in_capture_mode_types_rune_witness :
  let s := main_evts [key_ch 110] (init_state 1024 1 SortByCid) in
  exited s = false /\ waitingSortOption s = false /\ waitingLimitOption s = true /\
  EType resizeEvt = EventResize /\
  (let s' := main_evt resizeEvt s in
   optionBuf s' = (optionBuf s ++ utf8_of_rune (Ch resizeEvt))%string /\
   resizeSenders s' = S (resizeSenders s) /\
   waitingSortOption s' = waitingSortOption s /\
   waitingLimitOption s' = waitingLimitOption s /\ engine s' = engine s).
Proof.
  intros s.
  do 4 (split; [reflexivity|]).
  apply resize_in_capture_mode_types_rune; [reflexivity | right; split; reflexivity | reflexivity].
Defined.

(** X18 on "-42 rows". *)
Lemma Sscanf_d_reads_fmt_d_witness :
  - 2 ^ 63 <= -42 /\ -42 <= 2 ^ 63 - 1 /\ is_digit " "%char = false /\
  Sscanf_d (fmt_d (-42) ++ " rows") = Some (-42).
Proof.
  assert (Hlo : - 2 ^ 63 <= -42) by (apply Z.leb_le; reflexivity).
  assert (Hhi : -42 <= 2 ^ 63 - 1) by (apply Z.leb_le; reflexivity).
  split; [exact Hlo|]. split; [exact Hhi|]. split; [reflexivity|].
  exact (Sscanf_d_reads_fmt_d (-42) " rows" Hlo Hhi eq_refl).
Defined.



(** X21 on the Enter that commits "subs". *)
Lemma sort_commit_mask_covers_prompt_witness :
  let s := main_evts [key_ch 111; key_ch 115; key_ch 117; key_ch 98; key_ch 115]
                     (init_state 1024 1 SortByCid) in
  reachable s /\ exited s = false /\ waitingSortOption s = true /\
  is_sort_opt (optionBuf s) = true /\
  tty (main_evt enterEvt s) = (tty s ++ [(TMain, OWrite (clrline (optionBuf s)))])%list /\
  (String.length (sort_prompt s) <= String.length (clrline (optionBuf s)))%nat.
Proof.
  intros s.
  assert (Hr : reachable s) by (apply reachable_main_evts, reach_init; reflexivity).
  split; [exact Hr|]. do 3 (split; [reflexivity|]).
  exact (sort_commit_mask_covers_prompt s Hr eq_refl eq_refl eq_refl).
Defined.

(** X22 on the Enter that commits "5". *)
Lemma limit_commit_mask_fixed_width_witness :
  let s := main_evts [key_ch 110; key_ch 53] (init_state 1024 1 SortByCid) in
  exited s = false /\ waitingSortOption s = false /\ waitingLimitOption s = true /\
  tty (main_evt enterEvt s) = (tty s ++ [(TMain, OWrite (clrline ""))])%list /\
  ((String.length (limit_prompt s) <= String.length (clrline ""))%nat <->
   (String.length (fmt_d (Conns (engine s))) + String.length (optionBuf s) <= 8)%nat).
Proof.
  intros s.
  do 3 (split; [reflexivity|]).
  exact (limit_commit_mask_fixed_width s eq_refl eq_refl eq_refl).
Defined.
